(** * BreatheSmart-India: the forecast-serving hot path

    A shallow embedding of the time-bounded result cache and the per-client
    rate limiter of [backend/logging_config.py], of the ensemble forecaster
    of [backend/ml_models.py] and of the prediction service of
    [ml/prediction_service.py], followed by the properties established
    about them.

    Conventions of the embedding.
    - A [datetime] is the integer number of microseconds since the epoch
      (the resolution of Python's [datetime]); a [timedelta] is a number of
      microseconds.  Every call of [datetime.now()] in the source becomes an
      explicit argument (or a reading of an explicit clock).
    - Python floats are idealised as exact rationals ([Q]); [round(x, 1)]
      is round-half-to-even on the first decimal.
    - A Python [dict] keyed by strings is a [gmap string _]; a
      [defaultdict(list)] is a [gmap string (list _)] whose read access
      materialises the missing key with the empty list.
    - A call that may raise returns a [result]. *)

From Stdlib Require Import ZArith QArith Qround Qminmax Lia Lqa Ascii String.
From stdpp Require Import gmap strings list pretty.

(** ** Time *)

Module PyTime.

Abbreviation datetime := Z (only parsing).

Definition microseconds_per_second : Z := 1000000.

(** [timedelta(seconds=s)], [timedelta(minutes=m)], [timedelta(hours=h)] *)
Definition timedelta_seconds (s : Z) : Z := (s * microseconds_per_second)%Z.
Definition timedelta_minutes (m : Z) : Z := timedelta_seconds (m * 60).
Definition timedelta_hours (h : Z) : Z := timedelta_seconds (h * 3600).

End PyTime.

(** ** Exceptions *)

Inductive result (E A : Type) : Type :=
| Ok (a : A)
| Raise (e : E).
Arguments Ok {E A} a.
Arguments Raise {E A} e.

Definition bind {E A B} (m : result E A) (k : A -> result E B) : result E B :=
  match m with
  | Ok a => k a
  | Raise e => Raise e
  end.

Notation "'let*' x ':=' m 'in' k" := (bind m (fun x => k))
  (at level 10, x name, m at level 100, k at level 200).

(** ** [class Cache] (backend/logging_config.py) *)

Module Cache.
Section WithValue.

Context {Value : Type}.

(** An entry [{'value': value, 'expiry': expiry}]. *)
Record entry : Type := Entry { value : Value; expiry : PyTime.datetime }.

Record t : Type := Make {
  cache : gmap string entry;
  default_ttl : Z
}.

(** [__init__(self, default_ttl=3600)] *)
Definition init (default_ttl : Z) : t := Make ∅ default_ttl.

(** [set(self, key, value, ttl=None)], called when the clock reads [now]. *)
Definition set (self : t) (key : string) (v : Value) (ttl : option Z)
    (now : PyTime.datetime) : t :=
  let ttl := match ttl with None => default_ttl self | Some s => s end in
  let expiry := (now + PyTime.timedelta_seconds ttl)%Z in
  Make (<[key := Entry v expiry]> (cache self)) (default_ttl self).

(** [get(self, key)], called when the clock reads [now]: the result and the
    cache afterwards (an expired entry is deleted). *)
Definition get (self : t) (key : string) (now : PyTime.datetime)
    : option Value * t :=
  match cache self !! key with
  | None => (None, self)
  | Some e =>
      if decide (expiry e < now)%Z
      then (None, Make (base.delete key (cache self)) (default_ttl self))
      else (Some (value e), self)
  end.

(** [delete(self, key)] *)
Definition delete (self : t) (key : string) : t :=
  Make (base.delete key (cache self)) (default_ttl self).

(** [clear(self)] *)
Definition clear (self : t) : t := Make ∅ (default_ttl self).

(** One pass of the body of [_cleanup_task], woken when the clock reads
    [now]: every entry with [now > entry['expiry']] is deleted. *)
Definition _cleanup_task (self : t) (now : PyTime.datetime) : t :=
  Make (filter (fun kv => ¬ (expiry kv.2 < now)%Z) (cache self))
       (default_ttl self).


End WithValue.
Arguments entry : clear implicits.
Arguments t : clear implicits.
End Cache.

(** ** [class RateLimiter] (backend/logging_config.py) *)

Module RateLimiter.
Local Open Scope Z_scope.

(** What [_get_client_id] reads of a request: the [X-Forwarded-For] header,
    if present, and [request.client.host]. *)
Record Request : Type := {
  x_forwarded_for : option string;
  client_host : string
}.

(** The two [HTTPException]s raised, both with status 429; the detail
    message names the limit and the window. *)
Inductive HTTPException : Type :=
| PerMinuteExceeded (rpm_limit : Z)
| PerHourExceeded (rph_limit : Z).


Record t : Type := Make {
  rpm_limit : Z;
  rph_limit : Z;
  minute_buckets : gmap string (list PyTime.datetime);
  hour_buckets : gmap string (list PyTime.datetime)
}.

(** [__init__(self, requests_per_minute=60, requests_per_hour=1000)] *)
Definition init (requests_per_minute requests_per_hour : option Z) : t :=
  Make (default 60%Z requests_per_minute) (default 1000%Z requests_per_hour)
       ∅ ∅.

(** ASCII white space, as removed by [str.strip()]. *)
Definition is_space (c : ascii) : bool :=
  let n := nat_of_ascii c in
  (((9 <=? n) && (n <=? 13)) || ((28 <=? n) && (n <=? 32)))%nat.

Fixpoint lstrip (s : string) : string :=
  match s with
  | String c s' => if is_space c then lstrip s' else s
  | EmptyString => EmptyString
  end.

Fixpoint rstrip (s : string) : string :=
  match s with
  | String c s' =>
      match rstrip s' with
      | EmptyString => if is_space c then EmptyString else String c EmptyString
      | r => String c r
      end
  | EmptyString => EmptyString
  end.

(** [s.split(',')[0]] *)
Fixpoint first_field (s : string) : string :=
  match s with
  | String c s' =>
      if Ascii.eqb c ","%char then EmptyString else String c (first_field s')
  | EmptyString => EmptyString
  end.

(** [_get_client_id(self, request)]: an empty header is falsy. *)
Definition _get_client_id (request : Request) : string :=
  match x_forwarded_for request with
  | Some (String c s) => rstrip (lstrip (first_field (String c s)))
  | _ => client_host request
  end.

(** Reading [d[k]] of a [defaultdict(list)]: the value read ... *)
Definition bucket (d : gmap string (list PyTime.datetime)) (k : string)
    : list PyTime.datetime :=
  default [] (d !! k).

(** ... and the dictionary afterwards, where a missing key now holds the
    empty list. *)
Definition touch (d : gmap string (list PyTime.datetime)) (k : string)
    : gmap string (list PyTime.datetime) :=
  match d !! k with
  | Some _ => d
  | None => <[k := []]> d
  end.

(** [[ts for ts in l if ts > cutoff]] *)
Definition newer_than (cutoff : PyTime.datetime) (l : list PyTime.datetime)
    : list PyTime.datetime :=
  filter (fun ts => (cutoff < ts)%Z) l.

(** One of the two loops of [_cleanup_old_requests]: every bucket is
    trimmed at [cutoff], and a bucket left empty is deleted. *)
Definition trim (cutoff : PyTime.datetime)
    (d : gmap string (list PyTime.datetime))
    : gmap string (list PyTime.datetime) :=
  omap (fun l => match newer_than cutoff l with
                 | [] => None
                 | l' => Some l'
                 end) d.

(** [_cleanup_old_requests(self)], run when the clock reads [now]. *)
Definition _cleanup_old_requests (self : t) (now : PyTime.datetime) : t :=
  let cutoff_minute := (now - PyTime.timedelta_minutes 2)%Z in
  let cutoff_hour := (now - PyTime.timedelta_hours 2)%Z in
  Make (rpm_limit self) (rph_limit self)
       (trim cutoff_minute (minute_buckets self))
       (trim cutoff_hour (hour_buckets self)).

(** [d[k].append(ts)] on a [defaultdict(list)]. *)
Definition append (d : gmap string (list PyTime.datetime)) (k : string)
    (ts : PyTime.datetime) : gmap string (list PyTime.datetime) :=
  <[k := bucket d k ++ [ts]]> d.

(** [check_rate_limit(self, request)], called when the clock reads [now]:
    [Ok tt] when the coroutine returns, [Raise e] when it raises, and the
    limiter afterwards. *)
Definition check_rate_limit (self : t) (request : Request)
    (now : PyTime.datetime) : result HTTPException unit * t :=
  let client_id := _get_client_id request in
  let minute_requests :=
    newer_than (now - PyTime.timedelta_minutes 1)
               (bucket (minute_buckets self) client_id) in
  let mb := touch (minute_buckets self) client_id in
  if decide (rpm_limit self <= Z.of_nat (length minute_requests))%Z
  then (Raise (PerMinuteExceeded (rpm_limit self)),
        Make (rpm_limit self) (rph_limit self) mb (hour_buckets self))
  else
    let hour_requests :=
      newer_than (now - PyTime.timedelta_hours 1)
                 (bucket (hour_buckets self) client_id) in
    let hb := touch (hour_buckets self) client_id in
    if decide (rph_limit self <= Z.of_nat (length hour_requests))%Z
    then (Raise (PerHourExceeded (rph_limit self)),
          Make (rpm_limit self) (rph_limit self) mb hb)
    else (Ok tt,
          Make (rpm_limit self) (rph_limit self)
               (append mb client_id now) (append hb client_id now)).

(** The number of timestamps stored for [client_id] that lie within the
    trailing minute, and within the trailing hour, of [now]. *)
Definition minute_count (self : t) (client_id : string)
    (now : PyTime.datetime) : Z :=
  Z.of_nat (length (newer_than (now - PyTime.timedelta_minutes 1)
                               (bucket (minute_buckets self) client_id))).

Definition hour_count (self : t) (client_id : string)
    (now : PyTime.datetime) : Z :=
  Z.of_nat (length (newer_than (now - PyTime.timedelta_hours 1)
                               (bucket (hour_buckets self) client_id))).

(** The minute window of every client is a sub-multiset of its hour
    window. *)
Definition nested (self : t) : Prop :=
  forall client_id,
    bucket (minute_buckets self) client_id
    ⊆+ bucket (hour_buckets self) client_id.

End RateLimiter.

(** ** [class AQIPredictionModel] (backend/ml_models.py) *)

Module AQIPredictionModel.
Local Open Scope Q_scope.

(** A row of the feature matrix. *)
Definition FeatureVector : Type := list Q.

(** A historical record or an hourly weather reading: a [dict] of which
    only numeric entries are read, by [d.get(key, default)]. *)
Definition get (d : gmap string Q) (key : string) (dflt : Q) : Q :=
  default dflt (d !! key).

(** What a call can raise: the error of a model object whose [predict]
    fails or is missing, and the [IndexError] of indexing an empty
    sequence. *)
Inductive Exception : Type :=
| EstimatorError
| IndexError.

(** A model object: [None] when it has no [predict] attribute, otherwise
    its [predict], which yields [None] when it raises. *)
Definition Estimator (X : Type) : Type := option (X -> option Q).

Record t : Type := Make {
  lstm_model : Estimator (list FeatureVector);
  rf_model : Estimator FeatureVector;
  gb_model : Estimator FeatureVector
}.

Definition sequence_length : nat := 24.
Definition n_features : nat := 10.

(** [l[-n:]] for a positive [n]. *)
Definition last_n {A} (n : nat) (l : list A) : list A :=
  drop (length l - n) l.

(** The [while len(features_list) < self.sequence_length] loop of
    [_prepare_features], [deficit] iterations of it. *)
Fixpoint pad (deficit : nat) (features_list : list FeatureVector)
    : list FeatureVector :=
  match deficit with
  | O => features_list
  | S d =>
      pad d (match features_list with
             | x :: _ => x
             | [] => replicate n_features 150
             end :: features_list)
  end.

(** [_prepare_features(self, historical_data, weather_forecast)] *)
Definition _prepare_features (historical_data : list (gmap string Q))
    (weather_forecast : list (gmap string Q)) : list FeatureVector :=
  let features_list :=
    map (fun record =>
           [ get record "aqi" 150; get record "pm25" 90;
             get record "pm10" 140; get record "no2" 40;
             get record "so2" 10; get record "co" 1.5;
             get record "o3" 30; get record "temp" 25;
             get record "humidity" 60; get record "wind_speed" 10 ])
        (last_n sequence_length historical_data) in
  pad (sequence_length - length features_list) features_list.

(** [self.lstm_model.predict(lstm_input, verbose=0)[0][0]]: called
    directly, so that its failure is raised. *)
Definition lstm_predict (self : t) (lstm_input : list FeatureVector)
    : result Exception Q :=
  match lstm_model self with
  | Some predict =>
      match predict lstm_input with
      | Some y => Ok y
      | None => Raise EstimatorError
      end
  | None => Raise EstimatorError
  end.

(** [_safe_predict(self, model, features)] *)
Definition _safe_predict (model : Estimator FeatureVector)
    (features : FeatureVector) : Q :=
  match model with
  | Some predict =>
      match predict features with
      | Some y => y
      | None => 150.0
      end
  | None => 150.0
  end.

(** [_create_feature_vector(self, predicted_aqi, hour, weather_forecast)]:
    [weather_forecast[-1]] raises on the empty list. *)
Definition _create_feature_vector (predicted_aqi : Q) (hour : nat)
    (weather_forecast : list (gmap string Q))
    : result Exception FeatureVector :=
  let* weather :=
    match weather_forecast !! hour with
    | Some w => Ok w
    | None =>
        match last weather_forecast with
        | Some w => Ok w
        | None => Raise IndexError
        end
    end in
  Ok [ predicted_aqi;
       predicted_aqi * 0.6; predicted_aqi * 0.8; predicted_aqi * 0.15;
       predicted_aqi * 0.08; predicted_aqi * 0.01; predicted_aqi * 0.12;
       get weather "temp" 25; get weather "humidity" 60;
       get weather "wind_speed" 10 ].

(** [_calculate_confidence(self, hour, total_hours)] *)
Definition _calculate_confidence (hour : nat) (total_hours : Z) : Q :=
  let base_confidence := 94.0 in
  let decay_rate := 0.4 in
  let confidence :=
    base_confidence - inject_Z (Z.of_nat hour) * decay_rate in
  Qmax 70.0 (Qmin 95.0 confidence).

(** [_get_risk_level(self, aqi)] *)
Definition _get_risk_level (aqi : Q) : string :=
  if Qle_bool aqi 50 then "Good"
  else if Qle_bool aqi 100 then "Moderate"
  else if Qle_bool aqi 200 then "Poor"
  else if Qle_bool aqi 300 then "Very Poor"
  else "Severe".

(** Round half to even, and [round(x, 1)]. *)
Definition round_half_even (x : Q) : Z :=
  let f := Qfloor x in
  match Qcompare (x - inject_Z f) (1 # 2) with
  | Lt => f
  | Gt => (f + 1)%Z
  | Eq => if Z.even f then f else (f + 1)%Z
  end.

Definition round1 (x : Q) : Q := inject_Z (round_half_even (x * 10)) / 10.

(** An element of the list returned by [predict]; [timestamp] holds the
    [datetime] that the source renders with [isoformat()]. *)
Record Prediction : Type := {
  hour : nat;
  timestamp : PyTime.datetime;
  predicted_aqi : Q;
  confidence : Q;
  lower_bound : Q;
  upper_bound : Q;
  risk_level : string
}.

(** The weighted ensemble of one iteration of [predict]. *)
Definition ensemble (self : t) (current_sequence : list FeatureVector)
    : result Exception Q :=
  let* lstm_pred := lstm_predict self current_sequence in
  let* recent_features :=
    match last current_sequence with
    | Some row => Ok row
    | None => Raise IndexError
    end in
  let rf_pred := _safe_predict (rf_model self) recent_features in
  let gb_pred := _safe_predict (gb_model self) recent_features in
  Ok (0.5 * lstm_pred + 0.3 * rf_pred + 0.2 * gb_pred).

(** The dictionary appended in iteration [i], where [now] is what
    [datetime.now()] reads there. *)
Definition prediction (i : nat) (hours : Z) (now : PyTime.datetime)
    (ensemble_pred : Q) : Prediction :=
  let confidence := _calculate_confidence i hours in
  let lower_bound := ensemble_pred * (1 - (1 - confidence / 100) * 0.2) in
  let upper_bound := ensemble_pred * (1 + (1 - confidence / 100) * 0.2) in
  {| hour := i;
     timestamp := (now + PyTime.timedelta_hours (Z.of_nat i))%Z;
     predicted_aqi := Qmax 0 (round1 ensemble_pred);
     confidence := round1 confidence;
     lower_bound := Qmax 0 (round1 lower_bound);
     upper_bound := round1 upper_bound;
     risk_level := _get_risk_level ensemble_pred |}.

(** The [for i in range(hours)] loop of [predict] with [n] iterations
    left; [clock i] is what [datetime.now()] reads in iteration [i]. *)
Fixpoint predict_loop (self : t) (clock : nat -> PyTime.datetime)
    (weather_forecast : list (gmap string Q)) (hours : Z) (n i : nat)
    (current_sequence : list FeatureVector) (predictions : list Prediction)
    : result Exception (list Prediction) :=
  match n with
  | O => Ok predictions
  | S n' =>
      let* ensemble_pred := ensemble self current_sequence in
      let predictions :=
        predictions ++ [prediction i hours (clock i) ensemble_pred] in
      let* new_feature :=
        _create_feature_vector ensemble_pred i weather_forecast in
      predict_loop self clock weather_forecast hours n' (S i)
        (tail current_sequence ++ [new_feature]) predictions
  end.

(** [predict(self, historical_data, weather_forecast, hours=48)] *)
Definition predict (self : t) (clock : nat -> PyTime.datetime)
    (historical_data weather_forecast : list (gmap string Q)) (hours : Z)
    : result Exception (list Prediction) :=
  let features := _prepare_features historical_data weather_forecast in
  let current_sequence := last_n sequence_length features in
  predict_loop self clock weather_forecast hours (Z.to_nat hours) 0
    current_sequence [].

(** The values taken by [ensemble_pred] in the successive iterations of
    the loop, as long as it runs. *)
Fixpoint ensemble_trace (self : t) (weather_forecast : list (gmap string Q))
    (n i : nat) (current_sequence : list FeatureVector) : list Q :=
  match n with
  | O => []
  | S n' =>
      match ensemble self current_sequence with
      | Ok ensemble_pred =>
          ensemble_pred ::
          match _create_feature_vector ensemble_pred i weather_forecast with
          | Ok new_feature =>
              ensemble_trace self weather_forecast n' (S i)
                (tail current_sequence ++ [new_feature])
          | Raise _ => []
          end
      | Raise _ => []
      end
  end.

Definition ensembles (self : t)
    (historical_data weather_forecast : list (gmap string Q)) (hours : Z)
    : list Q :=
  ensemble_trace self weather_forecast (Z.to_nat hours) 0
    (last_n sequence_length
       (_prepare_features historical_data weather_forecast)).

(** [get_accuracy(self)] and [get_confidence_interval(self)] *)
Definition get_accuracy (self : t) : Q := 94.3.
Definition get_confidence_interval (self : t) : Q * Q := (85, 15).

End AQIPredictionModel.

(** ** [class PredictionService] (ml/prediction_service.py) *)

Module PredictionService.
Local Open Scope Q_scope.

Inductive Exception : Type :=
| FetchError
| ModelError (e : AQIPredictionModel.Exception).

(** The dictionary built by [get_predictions]. *)
Record Forecast : Type := {
  city : string;
  predictions : list AQIPredictionModel.Prediction;
  model_accuracy : Q;
  confidence_interval : Q * Q;
  generated_at : Q
}.

(** What one call of [get_predictions] obtains from outside: the answers
    of the two fetchers ([fetch_historical(city, days)] and
    [fetch_forecast(city, hours)], which may raise), the successive
    readings of [datetime.now()] and the successive readings of
    [asyncio.get_event_loop().time()], in seconds. *)
Record Outside : Type := {
  fetch_historical : string -> Z -> result Exception (list (gmap string Q));
  fetch_forecast : string -> Z -> result Exception (list (gmap string Q));
  now : nat -> PyTime.datetime;
  loop_time : nat -> Q
}.

Record t : Type := Make {
  model : AQIPredictionModel.t;
  cache : gmap string (Forecast * Q);
  cache_duration : Q
}.

(** [__init__(self)] around a constructed model. *)
Definition init (model : AQIPredictionModel.t) : t := Make model ∅ 3600.

(** The f-string [f"{city}_{hours}"]. *)
Definition cache_key (city : string) (hours : Z) : string :=
  (city ++ "_" ++ pretty hours)%string.

(** [get_predictions(self, city, hours=48)]: the outcome and the service
    afterwards. *)
Definition get_predictions (self : t) (outside : Outside) (city : string)
    (hours : Z) : result Exception Forecast * t :=
  let cache_key := cache_key city hours in
  let fresh :=
    match cache self !! cache_key with
    | Some (cached_data, timestamp) =>
        if Qlt_le_dec (loop_time outside 0 - timestamp) (cache_duration self)
        then Some cached_data else None
    | None => None
    end in
  match fresh with
  | Some cached_data => (Ok cached_data, self)
  | None =>
      let computed :=
        let* historical_data := fetch_historical outside city 30 in
        let* weather_forecast := fetch_forecast outside city hours in
        let* predictions :=
          match AQIPredictionModel.predict (model self) (now outside)
                  historical_data weather_forecast hours with
          | Ok l => Ok l
          | Raise e => Raise (ModelError e)
          end in
        Ok {| city := city;
              predictions := predictions;
              model_accuracy := AQIPredictionModel.get_accuracy (model self);
              confidence_interval :=
                AQIPredictionModel.get_confidence_interval (model self);
              generated_at := loop_time outside 1 |} in
      match computed with
      | Ok result =>
          (Ok result,
           Make (model self)
                (<[cache_key := (result, loop_time outside 2)]> (cache self))
                (cache_duration self))
      | Raise e => (Raise e, self)
      end
  end.








End PredictionService.

(** ** Sample data *)

Module Sample.

(** A request that came through a proxy. *)
Definition proxied : RateLimiter.Request :=
  {| RateLimiter.x_forwarded_for := Some "203.0.113.7, 10.0.0.2"%string;
     RateLimiter.client_host := "10.0.0.2"%string |}.

(** Whole seconds on the clock. *)
Definition at_second (s : Z) : Z := PyTime.timedelta_seconds s.

(** A limiter with three requests per minute that has admitted requests
    of [proxied] at seconds 0, 1 and 2. *)
Definition busy : RateLimiter.t :=
  let s0 := RateLimiter.init (Some 3%Z) None in
  let s1 := (RateLimiter.check_rate_limit s0 proxied (at_second 0)).2 in
  let s2 := (RateLimiter.check_rate_limit s1 proxied (at_second 1)).2 in
  (RateLimiter.check_rate_limit s2 proxied (at_second 2)).2.

(** Model objects: a sequence model that answers 120 on every window,
    with a point estimator answering 110 and an unfitted one; sequence
    models answering 200.08 and -400.05, with both point estimators
    unfitted; and a sequence model whose [predict] raises. *)
Definition steady : AQIPredictionModel.t :=
  AQIPredictionModel.Make (Some (fun _ => Some 120%Q))
    (Some (fun _ => Some 110%Q)) (Some (fun _ => None)).


Definition cold : AQIPredictionModel.t :=
  AQIPredictionModel.Make (Some (fun _ => Some (-400.05)%Q))
    (Some (fun _ => None)) (Some (fun _ => None)).

Definition broken : AQIPredictionModel.t :=
  AQIPredictionModel.Make (Some (fun _ => None))
    (Some (fun _ => Some 110%Q)) (Some (fun _ => Some 130%Q)).

(** Two clocks, one hour apart, and one hourly weather reading. *)
Definition morning (i : nat) : Z := at_second 28800.
Definition later (i : nat) : Z := at_second 32400.

Definition reading : gmap string Q :=
  {[ "temp"%string := 31%Q; "humidity"%string := 48%Q ]}.

(** The collaborators of a service whose weather provider is down for
    Delhi. *)
Definition upstream : PredictionService.Outside :=
  {| PredictionService.fetch_historical := fun _ _ => Ok [];
     PredictionService.fetch_forecast := fun city hours =>
       if String.eqb city "Delhi"
       then Raise PredictionService.FetchError
       else Ok (replicate (Z.to_nat hours) reading);
     PredictionService.now := morning;
     PredictionService.loop_time := fun k => (100 + inject_Z (Z.of_nat k))%Q |}.

Definition service : PredictionService.t := PredictionService.init steady.

End Sample.

(** ** The [cached] decorator of [class Cache] *)

Module Cached.
Section WithValue.

Context {V E : Type}.


End WithValue.
End Cached.

(** ** Runs of the rate limiter *)

Module LimiterRun.

(** What happens to a limiter: a request is checked, or the background task
    sweeps, when the clock reads [now]. *)
Inductive event : Type :=
| Checked (request : RateLimiter.Request) (now : PyTime.datetime)
| Swept (now : PyTime.datetime).

Definition event_time (ev : event) : PyTime.datetime :=
  match ev with
  | Checked _ now => now
  | Swept now => now
  end.

Definition step (self : RateLimiter.t) (ev : event) : RateLimiter.t :=
  match ev with
  | Checked request now => (RateLimiter.check_rate_limit self request now).2
  | Swept now => RateLimiter._cleanup_old_requests self now
  end.

Definition run (self : RateLimiter.t) (evs : list event) : RateLimiter.t :=
  foldl step self evs.

(** The clock never goes back along the events, which start at [start] or
    later. *)
Fixpoint in_order (start : PyTime.datetime) (evs : list event) : Prop :=
  match evs with
  | [] => True
  | ev :: evs' => (start <= event_time ev)%Z /\ in_order (event_time ev) evs'
  end.

(** Where the clock stands after the events. *)
Definition end_time (start : PyTime.datetime) (evs : list event)
    : PyTime.datetime :=
  foldl (fun _ ev => event_time ev) start evs.

(** What a run keeps: the limits, and counts within the limits at every
    time from [T] on. *)
Definition bounded (rpm rph : Z) (self : RateLimiter.t) (T : PyTime.datetime)
    : Prop :=
  RateLimiter.rpm_limit self = rpm /\ RateLimiter.rph_limit self = rph
  /\ forall client_id now, (T <= now)%Z ->
       (RateLimiter.minute_count self client_id now <= rpm)%Z
       /\ (RateLimiter.hour_count self client_id now <= rph)%Z.

End LimiterRun.

(** ** Shapes of the feature matrix *)

Module Shapes.
Import AQIPredictionModel.

(** The row that [_prepare_features] builds from a record. *)
Definition feature_row (record : gmap string Q) : FeatureVector :=
  [ get record "aqi" 150; get record "pm25" 90;
    get record "pm10" 140; get record "no2" 40;
    get record "so2" 10; get record "co" 1.5%Q;
    get record "o3" 30; get record "temp" 25;
    get record "humidity" 60; get record "wind_speed" 10 ].

Definition is_row (row : FeatureVector) : bool :=
  Nat.eqb (length row) n_features.

Definition is_window (window : list FeatureVector) : bool :=
  Nat.eqb (length window) sequence_length && forallb is_row window.

(** A model object that refuses (raises on) every input of the wrong
    shape. *)
Definition only_on {X} (ok : X -> bool) (model : Estimator X) : Estimator X :=
  match model with
  | Some predict => Some (fun x => if ok x then predict x else None)
  | None => None
  end.

Definition shape_checked (self : AQIPredictionModel.t) : AQIPredictionModel.t :=
  AQIPredictionModel.Make (only_on is_window (lstm_model self))
                          (only_on is_row (rf_model self))
                          (only_on is_row (gb_model self)).

End Shapes.

(** ** Alerts of [class PredictionService] *)

Module Alerts.
Local Open Scope Q_scope.

(** The dictionary appended by [get_alerts]. *)
Record Alert : Type := {
  timestamp : PyTime.datetime;
  hour : nat;
  predicted_aqi : Q;
  severity : string;
  recommendation : string
}.

(** [x > y] on numbers. *)
Definition gt (x y : Q) : bool := negb (Qle_bool x y).

(** [_get_recommendation(self, aqi)] *)
Definition _get_recommendation (aqi : Q) : string :=
  if gt aqi 300
  then "Stay indoors. Avoid all outdoor activities. Use air purifiers."
  else if gt aqi 200
  then "Limit outdoor exposure. Wear N95 masks if you must go out."
  else if gt aqi 150
  then "Sensitive groups should reduce outdoor activities."
  else "Moderate air quality. Take usual precautions.".

Definition alert_of (pred : AQIPredictionModel.Prediction) : Alert :=
  {| timestamp := AQIPredictionModel.timestamp pred;
     hour := AQIPredictionModel.hour pred;
     predicted_aqi := AQIPredictionModel.predicted_aqi pred;
     severity :=
       if gt (AQIPredictionModel.predicted_aqi pred) 300
       then "High" else "Moderate";
     recommendation :=
       _get_recommendation (AQIPredictionModel.predicted_aqi pred) |}.

(** The [for pred in predictions['predictions']] loop of [get_alerts]. *)
Fixpoint alerts_loop (threshold : Q)
    (predictions : list AQIPredictionModel.Prediction) (alerts : list Alert)
    : list Alert :=
  match predictions with
  | [] => alerts
  | pred :: predictions' =>
      alerts_loop threshold predictions'
        (if gt (AQIPredictionModel.predicted_aqi pred) threshold
         then alerts ++ [alert_of pred]
         else alerts)
  end.

(** [get_alerts(self, city, threshold=200)] *)
Definition get_alerts (self : PredictionService.t)
    (outside : PredictionService.Outside) (city : string) (threshold : Q)
    : result PredictionService.Exception (list Alert) * PredictionService.t :=
  let '(predictions, self') :=
    PredictionService.get_predictions self outside city 48 in
  (let* predictions := predictions in
   Ok (alerts_loop threshold (PredictionService.predictions predictions) []),
   self').

End Alerts.

(** ** [class PerformanceMonitor] (backend/logging_config.py) *)

Module PerformanceMonitor.
Local Open Scope Q_scope.

(** An entry of [self.metrics['requests']]. *)
Record Request : Type := {
  endpoint : string;
  duration : Q;
  status : Z;
  timestamp : PyTime.datetime
}.







End PerformanceMonitor.

(** ** [class HealthChecker] (backend/logging_config.py) *)

Module HealthChecker.
Local Open Scope Q_scope.

(** What the checks find outside: whether the database session answers,
    the status of each of the two HTTP requests ([None] when the request
    raises), whether the model object can be built and what its
    [lstm_model] is ([None] when the construction raises, [Some false] when
    [lstm_model] is [None]), and the disk usage in percent ([None] when
    [psutil] raises). *)
Record Probe : Type := {
  database_answers : bool;
  cpcb_status : option Z;
  openweather_status : option Z;
  lstm_loaded : option bool;
  disk_percent : option Q
}.

(** The messages of [check_disk_space]. *)
Inductive DiskMessage : Type :=
| DiskCritical (percent_used : Q)
| DiskWarning (percent_used : Q)
| DiskNormal (percent_used : Q)
| DiskCheckError.

(** [check_database(self)], without its message. *)
Definition check_database (probe : Probe) : bool := database_answers probe.

(** [check_external_apis(self)] *)
Definition check_external_apis (probe : Probe) : bool * (bool * bool) :=
  let up (st : option Z) :=
    match st with
    | Some code => bool_decide (code < 500)%Z
    | None => false
    end in
  let cpcb := up (cpcb_status probe) in
  let openweather := up (openweather_status probe) in
  (cpcb && openweather, (cpcb, openweather)).

(** [check_ml_models(self)], without its message. *)
Definition check_ml_models (probe : Probe) : bool :=
  match lstm_loaded probe with
  | Some has_model => has_model
  | None => false
  end.

(** [check_disk_space(self)] *)
Definition check_disk_space (probe : Probe) : bool * DiskMessage :=
  match disk_percent probe with
  | Some percent_used =>
      if Alerts.gt percent_used 90 then (false, DiskCritical percent_used)
      else if Alerts.gt percent_used 80 then (true, DiskWarning percent_used)
      else (true, DiskNormal percent_used)
  | None => (false, DiskCheckError)
  end.

(** The dictionary returned by [run_all_checks], without messages and
    timestamp. *)
Record Report : Type := {
  status : string;
  database : bool;
  external_apis : bool * (bool * bool);
  ml_models : bool;
  disk_space : bool * DiskMessage
}.

(** [run_all_checks(self)] *)
Definition run_all_checks (probe : Probe) : Report :=
  let db_healthy := check_database probe in
  let apis := check_external_apis probe in
  let ml_healthy := check_ml_models probe in
  let disk := check_disk_space probe in
  let overall_healthy := db_healthy && ml_healthy && disk.1 in
  {| status := if overall_healthy then "healthy" else "degraded";
     database := db_healthy;
     external_apis := apis;
     ml_models := ml_healthy;
     disk_space := disk |}.

End HealthChecker.

(** * Properties *)

(** ** The cache *)

Section CacheFacts.
Context {Value : Type}.
Implicit Types (self : Cache.t Value) (e : Cache.entry Value).
Local Open Scope Z_scope.


Lemma cleanup_lookup self now key :
  Cache.cache (Cache._cleanup_task self now) !! key
  = match Cache.cache self !! key with
    | Some e => if decide (Cache.expiry e < now) then None else Some e
    | None => None
    end.
Proof.
  unfold Cache._cleanup_task. cbn. rewrite map_lookup_filter.
  destruct (Cache.cache self !! key) as [e|]; cbn; [|done].
  case_decide; by rewrite ?option_guard_True, ?option_guard_False by tauto.
Qed.





End CacheFacts.




(** ** The rate limiter *)

Section RateLimiterFacts.
Import RateLimiter.
Implicit Types (self : RateLimiter.t)
  (d : gmap string (list PyTime.datetime)) (k : string).
Local Open Scope Z_scope.

Lemma bucket_touch d k k' : bucket (touch d k) k' = bucket d k'.
Proof.
  unfold bucket, touch. destruct (d !! k) eqn:Hk; [done|].
  destruct (decide (k = k')) as [<-|Hne].
  - by rewrite lookup_insert_eq, Hk.
  - by rewrite lookup_insert_ne.
Qed.

Lemma bucket_append_eq d k ts : bucket (append d k ts) k = bucket d k ++ [ts].
Proof. unfold append, bucket at 1. by rewrite lookup_insert_eq. Qed.

Lemma bucket_append_ne d k k' ts :
  k ≠ k' -> bucket (append d k ts) k' = bucket d k'.
Proof. intros Hne. unfold append, bucket. by rewrite lookup_insert_ne. Qed.

Lemma bucket_trim cutoff d k :
  bucket (trim cutoff d) k = newer_than cutoff (bucket d k).
Proof.
  unfold bucket, trim. rewrite lookup_omap.
  destruct (d !! k) as [l|]; cbn -[newer_than]; [|done].
  by destruct (newer_than cutoff l).
Qed.

Lemma newer_than_length cutoff (l : list PyTime.datetime) :
  (length (newer_than cutoff l) <= length l)%nat.
Proof. apply length_filter. Qed.

Lemma newer_than_mono cutoff (l1 l2 : list PyTime.datetime) :
  l1 ⊆+ l2 -> newer_than cutoff l1 ⊆+ newer_than cutoff l2.
Proof.
  intros Hsub. unfold newer_than.
  induction Hsub as [|x l1 l2 _ IH|x y l|x l1 l2 _ IH|l1 l2 l3 _ IH1 _ IH2].
  - done.
  - rewrite !filter_cons. case_decide; [by apply submseteq_skip|done].
  - rewrite !filter_cons. repeat case_decide; try done.
    apply submseteq_swap.
  - rewrite !filter_cons. case_decide; [by apply submseteq_cons|done].
  - by etrans.
Qed.

Lemma newer_than_weaken cutoff1 cutoff2 (l : list PyTime.datetime) :
  cutoff2 <= cutoff1 -> newer_than cutoff1 l ⊆+ newer_than cutoff2 l.
Proof.
  intros Hc. unfold newer_than. induction l as [|x l IH]; [done|].
  rewrite !filter_cons. repeat case_decide; try lia; try done.
  - by apply submseteq_skip.
  - by apply submseteq_cons.
Qed.

(** Filtering both sides of a sub-multiset, the smaller side with the
    later cutoff. *)
Lemma newer_than_submseteq cutoff1 cutoff2 (l1 l2 : list PyTime.datetime) :
  cutoff2 <= cutoff1 -> l1 ⊆+ l2 ->
  newer_than cutoff1 l1 ⊆+ newer_than cutoff2 l2.
Proof.
  intros Hc Hsub. etrans; [by apply newer_than_mono|].
  by apply newer_than_weaken.
Qed.

(** The three ways through [check_rate_limit]. *)
Lemma check_minute_denied self request now :
  rpm_limit self <= minute_count self (_get_client_id request) now ->
  (check_rate_limit self request now).1
  = Raise (PerMinuteExceeded (rpm_limit self)).
Proof.
  intros H. unfold check_rate_limit. fold (minute_count self
    (_get_client_id request) now). by rewrite decide_True.
Qed.

Lemma check_hour_denied self request now :
  minute_count self (_get_client_id request) now < rpm_limit self ->
  rph_limit self <= hour_count self (_get_client_id request) now ->
  (check_rate_limit self request now).1
  = Raise (PerHourExceeded (rph_limit self)).
Proof.
  intros Hm Hh. unfold check_rate_limit.
  fold (minute_count self (_get_client_id request) now).
  fold (hour_count self (_get_client_id request) now).
  rewrite decide_False by lia. by rewrite decide_True.
Qed.

Lemma check_allowed self request now :
  minute_count self (_get_client_id request) now < rpm_limit self ->
  hour_count self (_get_client_id request) now < rph_limit self ->
  check_rate_limit self request now
  = (Ok (),
     Make (rpm_limit self) (rph_limit self)
       (append (touch (minute_buckets self) (_get_client_id request))
               (_get_client_id request) now)
       (append (touch (hour_buckets self) (_get_client_id request))
               (_get_client_id request) now)).
Proof.
  intros Hm Hh. unfold check_rate_limit.
  fold (minute_count self (_get_client_id request) now).
  fold (hour_count self (_get_client_id request) now).
  by rewrite !decide_False by lia.
Qed.

(** The limits are never changed, and a denied request leaves every window
    as it was. *)
Lemma check_limits self request now :
  rpm_limit (check_rate_limit self request now).2 = rpm_limit self
  /\ rph_limit (check_rate_limit self request now).2 = rph_limit self.
Proof. unfold check_rate_limit. by repeat case_decide. Qed.

Lemma check_denied_windows self request now e k :
  (check_rate_limit self request now).1 = Raise e ->
  bucket (minute_buckets (check_rate_limit self request now).2) k
  = bucket (minute_buckets self) k
  /\ bucket (hour_buckets (check_rate_limit self request now).2) k
     = bucket (hour_buckets self) k.
Proof.
  unfold check_rate_limit. repeat case_decide; cbn; intros He;
    try discriminate; by rewrite ?bucket_touch.
Qed.

Lemma check_allowed_windows self request now k :
  (check_rate_limit self request now).1 = Ok () ->
  let extend (l : list PyTime.datetime) :=
    if decide (k = _get_client_id request) then l ++ [now] else l in
  bucket (minute_buckets (check_rate_limit self request now).2) k
  = extend (bucket (minute_buckets self) k)
  /\ bucket (hour_buckets (check_rate_limit self request now).2) k
     = extend (bucket (hour_buckets self) k).
Proof.
  unfold check_rate_limit. repeat case_decide; cbn; intros He;
    try discriminate; subst;
    rewrite ?bucket_append_eq, ?bucket_append_ne, ?bucket_touch by done;
    done.
Qed.

(** One step of a run, read through the windows of the requesting
    client. *)
Lemma step_allowed self request now lm lh :
  bucket (minute_buckets self) (_get_client_id request) = lm ->
  bucket (hour_buckets self) (_get_client_id request) = lh ->
  Z.of_nat (length (newer_than (now - PyTime.timedelta_minutes 1) lm))
    < rpm_limit self ->
  Z.of_nat (length (newer_than (now - PyTime.timedelta_hours 1) lh))
    < rph_limit self ->
  (check_rate_limit self request now).1 = Ok ()
  /\ bucket (minute_buckets (check_rate_limit self request now).2)
            (_get_client_id request) = lm ++ [now]
  /\ bucket (hour_buckets (check_rate_limit self request now).2)
            (_get_client_id request) = lh ++ [now]
  /\ rpm_limit (check_rate_limit self request now).2 = rpm_limit self
  /\ rph_limit (check_rate_limit self request now).2 = rph_limit self.
Proof.
  intros <- <- Hm Hh.
  assert ((check_rate_limit self request now).1 = Ok ()) as Hok
    by (by rewrite check_allowed).
  destruct (check_allowed_windows self request now
              (_get_client_id request) Hok) as [Hmb Hhb].
  rewrite decide_True in Hmb, Hhb by done.
  destruct (check_limits self request now). done.
Qed.

Lemma step_minute_denied self request now lm :
  bucket (minute_buckets self) (_get_client_id request) = lm ->
  rpm_limit self
    <= Z.of_nat (length (newer_than (now - PyTime.timedelta_minutes 1) lm)) ->
  (check_rate_limit self request now).1
  = Raise (PerMinuteExceeded (rpm_limit self))
  /\ bucket (minute_buckets (check_rate_limit self request now).2)
            (_get_client_id request) = lm
  /\ bucket (hour_buckets (check_rate_limit self request now).2)
            (_get_client_id request)
     = bucket (hour_buckets self) (_get_client_id request)
  /\ rpm_limit (check_rate_limit self request now).2 = rpm_limit self
  /\ rph_limit (check_rate_limit self request now).2 = rph_limit self.
Proof.
  intros <- Hm.
  pose proof (check_minute_denied self request now Hm) as Hno.
  destruct (check_denied_windows self request now _
              (_get_client_id request) Hno) as [Hmb Hhb].
  destruct (check_limits self request now). done.
Qed.

End RateLimiterFacts.

(** C4.  A request is denied exactly when the requesting client has at least
    [rpm_limit] stored timestamps within the trailing minute or at least
    [rph_limit] within the trailing hour; the minute limit is tested first
    and is the reason reported whenever it is reached, the hour limit being
    reported only below it.  With a limit of three per minute (and the
    default thousand per hour), three requests of one client are allowed,
    a fourth less than a minute after the first is denied, and a request
    made a minute or more after the first is allowed again.  The default
    limits are 60 per minute and 1000 per hour. *)
Theorem C4_rate_limit_decision :
  (forall (self : RateLimiter.t) (request : RateLimiter.Request)
          (now : PyTime.datetime),
     let c := RateLimiter._get_client_id request in
     let outcome := (RateLimiter.check_rate_limit self request now).1 in
     ((exists e, outcome = Raise e) <->
      (RateLimiter.rpm_limit self <= RateLimiter.minute_count self c now
       \/ RateLimiter.rph_limit self <= RateLimiter.hour_count self c now)%Z)
     /\ ((RateLimiter.rpm_limit self <= RateLimiter.minute_count self c now)%Z ->
         outcome
         = Raise (RateLimiter.PerMinuteExceeded (RateLimiter.rpm_limit self)))
     /\ ((RateLimiter.minute_count self c now < RateLimiter.rpm_limit self)%Z ->
         (RateLimiter.rph_limit self <= RateLimiter.hour_count self c now)%Z ->
         outcome
         = Raise (RateLimiter.PerHourExceeded (RateLimiter.rph_limit self))))
  /\ (forall (request : RateLimiter.Request) (t1 t2 t3 t4 t5 : PyTime.datetime),
        (t1 <= t2 <= t3)%Z ->
        (t3 <= t4 < t1 + PyTime.timedelta_minutes 1)%Z ->
        (t1 + PyTime.timedelta_minutes 1 <= t5)%Z ->
        let s0 := RateLimiter.init (Some 3%Z) None in
        let r1 := RateLimiter.check_rate_limit s0 request t1 in
        let r2 := RateLimiter.check_rate_limit r1.2 request t2 in
        let r3 := RateLimiter.check_rate_limit r2.2 request t3 in
        let r4 := RateLimiter.check_rate_limit r3.2 request t4 in
        let r5 := RateLimiter.check_rate_limit r4.2 request t5 in
        r1.1 = Ok () /\ r2.1 = Ok () /\ r3.1 = Ok ()
        /\ r4.1 = Raise (RateLimiter.PerMinuteExceeded 3)
        /\ r5.1 = Ok ())
  /\ RateLimiter.rpm_limit (RateLimiter.init None None) = 60%Z
  /\ RateLimiter.rph_limit (RateLimiter.init None None) = 1000%Z.
Proof.
  split; [|split; [|done]].
  - intros self request now c outcome. subst c outcome.
    pose proof (check_minute_denied self request now) as Hmin.
    pose proof (check_hour_denied self request now) as Hhour.
    pose proof (check_allowed self request now) as Hok.
    split; [|split; assumption]. split.
    + intros [e He].
      destruct (Z_lt_le_dec
                  (RateLimiter.minute_count self
                     (RateLimiter._get_client_id request) now)
                  (RateLimiter.rpm_limit self)) as [Hm|Hm]; [|by left].
      destruct (Z_lt_le_dec
                  (RateLimiter.hour_count self
                     (RateLimiter._get_client_id request) now)
                  (RateLimiter.rph_limit self)) as [Hh|Hh]; [|by right].
      rewrite Hok in He by done. discriminate.
    + intros [Hm|Hh]; [eauto|].
      destruct (Z_lt_le_dec
                  (RateLimiter.minute_count self
                     (RateLimiter._get_client_id request) now)
                  (RateLimiter.rpm_limit self)) as [Hm|Hm]; eauto.
  - intros request t1 t2 t3 t4 t5 H123 H4 H5 s0 r1 r2 r3 r4 r5.
    unfold PyTime.timedelta_minutes, PyTime.timedelta_seconds,
      PyTime.microseconds_per_second in H4, H5.
    assert (forall cutoff l, Z.of_nat (length (RateLimiter.newer_than cutoff l))
                             <= Z.of_nat (length l))%Z as Hlen
      by (intros; apply inj_le, newer_than_length).
    destruct (step_allowed s0 request t1 [] []) as (E1 & M1 & H1 & P1 & Q1);
      try done.
    fold r1 in E1, M1, H1, P1, Q1. cbn in M1, H1, P1, Q1.
    destruct (step_allowed r1.2 request t2 _ _ M1 H1) as (E2 & M2 & H2 & P2 & Q2).
    { rewrite P1. specialize (Hlen (t2 - PyTime.timedelta_minutes 1)%Z [t1]).
      cbn [length] in Hlen. lia. }
    { rewrite Q1. specialize (Hlen (t2 - PyTime.timedelta_hours 1)%Z [t1]).
      cbn [length] in Hlen. lia. }
    fold r2 in E2, M2, H2, P2, Q2. cbn in M2, H2.
    destruct (step_allowed r2.2 request t3 _ _ M2 H2) as (E3 & M3 & H3 & P3 & Q3).
    { rewrite P2, P1.
      specialize (Hlen (t3 - PyTime.timedelta_minutes 1)%Z [t1; t2]).
      cbn [length] in Hlen. lia. }
    { rewrite Q2, Q1.
      specialize (Hlen (t3 - PyTime.timedelta_hours 1)%Z [t1; t2]).
      cbn [length] in Hlen. lia. }
    fold r3 in E3, M3, H3, P3, Q3. cbn in M3, H3.
    destruct (step_minute_denied r3.2 request t4 _ M3) as (E4 & M4 & H4' & P4 & Q4).
    { rewrite P3, P2, P1. unfold RateLimiter.newer_than,
        PyTime.timedelta_minutes, PyTime.timedelta_seconds,
        PyTime.microseconds_per_second.
      rewrite !filter_cons, filter_nil. repeat case_decide; cbn; lia. }
    fold r4 in E4, M4, H4', P4, Q4. rewrite H3 in H4'.
    destruct (step_allowed r4.2 request t5 _ _ M4 H4') as (E5 & _).
    { rewrite P4, P3, P2, P1. unfold RateLimiter.newer_than,
        PyTime.timedelta_minutes, PyTime.timedelta_seconds,
        PyTime.microseconds_per_second.
      rewrite !filter_cons, filter_nil. repeat case_decide; cbn; lia. }
    { rewrite Q4, Q3, Q2, Q1.
      specialize (Hlen (t5 - PyTime.timedelta_hours 1)%Z [t1; t2; t3]).
      cbn [length] in Hlen. lia. }
    fold r5 in E5. rewrite P3, P2, P1 in E4. done.
Qed.

(** The scenario of C4 on the clock: requests at seconds 0, 1, 2 and 3, then
    at second 61. *)
Lemma C4_rate_limit_witness :
  let s0 := RateLimiter.init (Some 3%Z) None in
  let r1 := RateLimiter.check_rate_limit s0 Sample.proxied (Sample.at_second 0) in
  let r2 := RateLimiter.check_rate_limit r1.2 Sample.proxied (Sample.at_second 1) in
  let r3 := RateLimiter.check_rate_limit r2.2 Sample.proxied (Sample.at_second 2) in
  let r4 := RateLimiter.check_rate_limit r3.2 Sample.proxied (Sample.at_second 3) in
  let r5 := RateLimiter.check_rate_limit r4.2 Sample.proxied (Sample.at_second 61) in
  (r1.1 = Ok () /\ r2.1 = Ok () /\ r3.1 = Ok ()
   /\ r4.1 = Raise (RateLimiter.PerMinuteExceeded 3) /\ r5.1 = Ok ())
  /\ (RateLimiter.check_rate_limit Sample.busy Sample.proxied
        (Sample.at_second 3)).1
     = Raise (RateLimiter.PerMinuteExceeded 3).
Proof.
  split.
  - apply (proj1 (proj2 C4_rate_limit_decision) Sample.proxied
             (Sample.at_second 0) (Sample.at_second 1) (Sample.at_second 2)
             (Sample.at_second 3) (Sample.at_second 61));
      vm_compute; repeat split; discriminate.
  - apply (proj1 (proj2 (proj1 C4_rate_limit_decision Sample.busy
                            Sample.proxied (Sample.at_second 3)))).
    vm_compute. discriminate.
Defined.



(** C10.  In every state the limiter reaches, the minute window of each
    client is a sub-multiset of its hour window: this holds of the limiter
    as constructed, and is preserved by every [check_rate_limit] (which
    appends the same timestamp to both windows or to neither) and by every
    pass of [_cleanup_old_requests] (which trims the minute windows at two
    minutes and the hour windows at two hours before one and the same
    [now]). *)
Theorem C10_minute_window_within_hour_window :
  (forall requests_per_minute requests_per_hour,
     RateLimiter.nested
       (RateLimiter.init requests_per_minute requests_per_hour))
  /\ (forall self request now,
        RateLimiter.nested self ->
        RateLimiter.nested (RateLimiter.check_rate_limit self request now).2)
  /\ (forall self now,
        RateLimiter.nested self ->
        RateLimiter.nested (RateLimiter._cleanup_old_requests self now)).
Proof.
  split; [|split].
  - intros rpm rph k. unfold RateLimiter.init, RateLimiter.bucket. cbn.
    by rewrite lookup_empty.
  - intros self request now Hnested k.
    destruct (RateLimiter.check_rate_limit self request now).1 as [[]|e] eqn:Ho.
    + destruct (check_allowed_windows self request now k Ho) as [-> ->].
      case_decide; [|apply Hnested].
      apply submseteq_app; [apply Hnested|done].
    + destruct (check_denied_windows self request now e k Ho) as [-> ->].
      apply Hnested.
  - intros self now Hnested k. unfold RateLimiter._cleanup_old_requests. cbn.
    rewrite !bucket_trim. apply newer_than_submseteq; [|apply Hnested].
    unfold PyTime.timedelta_minutes, PyTime.timedelta_hours,
      PyTime.timedelta_seconds, PyTime.microseconds_per_second. lia.
Qed.

(** C10 at work: the invariant after three admitted requests and a sweep at
    second 150, which empties the minute window and keeps the hour
    window. *)
Lemma C10_minute_window_witness :
  RateLimiter.nested Sample.busy
  /\ RateLimiter.nested
       (RateLimiter._cleanup_old_requests Sample.busy (Sample.at_second 150)).
Proof.
  destruct C10_minute_window_within_hour_window as (Hinit & Hcheck & Hsweep).
  assert (RateLimiter.nested Sample.busy) as Hbusy.
  { unfold Sample.busy. do 3 apply Hcheck. apply Hinit. }
  split; [exact Hbusy|]. apply Hsweep, Hbusy.
Defined.

(** ** The forecaster *)

Section ForecasterFacts.
Import AQIPredictionModel.
Local Open Scope Q_scope.

Lemma risk_level_cases (aqi : Q) :
  (aqi <= 50 -> _get_risk_level aqi = "Good"%string)
  /\ (50 < aqi -> aqi <= 100 -> _get_risk_level aqi = "Moderate"%string)
  /\ (100 < aqi -> aqi <= 200 -> _get_risk_level aqi = "Poor"%string)
  /\ (200 < aqi -> aqi <= 300 -> _get_risk_level aqi = "Very Poor"%string)
  /\ (300 < aqi -> _get_risk_level aqi = "Severe"%string).
Proof.
  unfold _get_risk_level.
  destruct (Qle_bool aqi 50) eqn:H50;
    destruct (Qle_bool aqi 100) eqn:H100;
    destruct (Qle_bool aqi 200) eqn:H200;
    destruct (Qle_bool aqi 300) eqn:H300;
    repeat match goal with
           | H : Qle_bool _ _ = true |- _ => apply Qle_bool_iff in H
           | H : Qle_bool _ _ = false |- _ =>
               apply not_true_iff_false in H; rewrite Qle_bool_iff in H
           end;
    repeat split; intros; try reflexivity; exfalso; lra.
Qed.

End ForecasterFacts.

(** C9.  The risk level is a function of the ensemble value alone, with the
    bands closed above: at most 50 is "Good", above 50 and at most 100
    "Moderate", above 100 and at most 200 "Poor", above 200 and at most 300
    "Very Poor", above 300 "Severe"; so 50 is "Good", 50.01 "Moderate",
    300 "Very Poor" and 300.01 "Severe".  The level attached to a forecast
    point is that of the unrounded ensemble value of its hour. *)
Theorem C9_risk_level_step_function :
  (forall aqi : Q,
     (aqi <= 50 -> AQIPredictionModel._get_risk_level aqi = "Good"%string)
     /\ (50 < aqi -> aqi <= 100 ->
         AQIPredictionModel._get_risk_level aqi = "Moderate"%string)
     /\ (100 < aqi -> aqi <= 200 ->
         AQIPredictionModel._get_risk_level aqi = "Poor"%string)
     /\ (200 < aqi -> aqi <= 300 ->
         AQIPredictionModel._get_risk_level aqi = "Very Poor"%string)
     /\ (300 < aqi ->
         AQIPredictionModel._get_risk_level aqi = "Severe"%string))%Q
  /\ AQIPredictionModel._get_risk_level 50%Q = "Good"%string
  /\ AQIPredictionModel._get_risk_level 50.01%Q = "Moderate"%string
  /\ AQIPredictionModel._get_risk_level 300%Q = "Very Poor"%string
  /\ AQIPredictionModel._get_risk_level 300.01%Q = "Severe"%string
  /\ (forall i hours now ensemble_pred,
        AQIPredictionModel.risk_level
          (AQIPredictionModel.prediction i hours now ensemble_pred)
        = AQIPredictionModel._get_risk_level ensemble_pred).
Proof.
  split; [exact risk_level_cases|]. repeat split.
Qed.

(** C9 at work: 137.5 lies in the "Poor" band. *)
Lemma C9_risk_level_witness :
  AQIPredictionModel._get_risk_level 137.5%Q = "Poor"%string.
Proof.
  apply (proj1 (proj2 (proj2 (proj1 C9_risk_level_step_function 137.5%Q))));
    vm_compute; congruence.
Defined.

Section ForecasterLoop.
Import AQIPredictionModel.
Implicit Types (self : AQIPredictionModel.t)
  (window : list FeatureVector) (acc preds : list Prediction).

Lemma pad_length deficit (l : list FeatureVector) :
  length (pad deficit l) = (deficit + length l)%nat.
Proof.
  revert l. induction deficit as [|d IH]; intros l; [done|].
  cbn [pad]. rewrite IH. cbn [length]. lia.
Qed.

(** The window handed to the loop always has [sequence_length] rows. *)
Lemma _prepare_features_length historical_data weather_forecast :
  length (_prepare_features historical_data weather_forecast)
  = sequence_length.
Proof.
  unfold _prepare_features, last_n.
  rewrite pad_length, !length_map, !length_drop. unfold sequence_length. lia.
Qed.

Lemma initial_window historical_data weather_forecast :
  last_n sequence_length (_prepare_features historical_data weather_forecast)
  = _prepare_features historical_data weather_forecast.
Proof.
  unfold last_n. rewrite _prepare_features_length.
  by rewrite Nat.sub_diag.
Qed.

Lemma initial_window_nonempty historical_data weather_forecast :
  last_n sequence_length (_prepare_features historical_data weather_forecast)
  ≠ [].
Proof.
  rewrite initial_window. intros Hnil.
  pose proof (_prepare_features_length historical_data weather_forecast) as H.
  rewrite Hnil in H. discriminate.
Qed.

Lemma _create_feature_vector_ok predicted_aqi i
    (weather_forecast : list (gmap string Q)) :
  weather_forecast ≠ [] ->
  exists new_feature,
    _create_feature_vector predicted_aqi i weather_forecast = Ok new_feature.
Proof.
  intros Hne. unfold _create_feature_vector.
  destruct (weather_forecast !! i) as [w|]; cbn; [by eexists|].
  destruct (last weather_forecast) as [w|] eqn:Hlast; cbn; [by eexists|].
  by apply last_None in Hlast.
Qed.

(** With a sequence model that answers on every window, the loop runs
    through and numbers its points from [i] on. *)
Lemma predict_loop_total self clock weather_forecast hours lstm :
  lstm_model self = Some lstm ->
  (forall w, is_Some (lstm w)) ->
  forall n i window acc,
    (n ≠ 0%nat -> weather_forecast ≠ []) -> window ≠ [] ->
    exists preds,
      predict_loop self clock weather_forecast hours n i window acc
      = Ok (acc ++ preds)
      /\ hour <$> preds = seq i n.
Proof.
  intros Hlstm Htotal. induction n as [|n IH]; intros i window acc Hwf Hwin.
  - exists []. by rewrite app_nil_r.
  - cbn [predict_loop]. unfold ensemble, lstm_predict. rewrite Hlstm.
    destruct (Htotal window) as [y ->].
    destruct (last window) as [row|] eqn:Hlast;
      [|by apply last_None in Hlast].
    cbn [bind].
    destruct (_create_feature_vector_ok
                (0.5 * y + 0.3 * _safe_predict (rf_model self) row
                 + 0.2 * _safe_predict (gb_model self) row)%Q
                i weather_forecast) as [nf ->]; [by apply Hwf|].
    cbn [bind].
    edestruct (IH (S i) (tail window ++ [nf])) as (preds & -> & Hhours).
    + intros _. by apply Hwf.
    + by destruct (tail window).
    + eexists (_ :: preds). split; [by rewrite <- app_assoc|].
      cbn. by rewrite Hhours.
Qed.

(** What the loop returns, when it returns, is the list of the points
    built from the successive ensemble values. *)
Lemma predict_loop_trace self clock weather_forecast hours n :
  forall i window acc preds,
    predict_loop self clock weather_forecast hours n i window acc = Ok preds ->
    preds
    = acc ++ imap (fun j e => prediction (i + j) hours (clock (i + j)%nat) e)
                  (ensemble_trace self weather_forecast n i window)
    /\ length (ensemble_trace self weather_forecast n i window) = n.
Proof.
  induction n as [|n IH]; intros i window acc preds Hrun.
  - cbn in Hrun. injection Hrun as <-. cbn. by rewrite app_nil_r.
  - cbn [predict_loop] in Hrun. cbn [ensemble_trace].
    destruct (ensemble self window) as [e|]; [|discriminate].
    cbn [bind] in Hrun.
    destruct (_create_feature_vector e i weather_forecast) as [nf|];
      [|discriminate].
    cbn [bind] in Hrun. apply IH in Hrun as [-> Hlen].
    split; [|cbn; by rewrite Hlen].
    rewrite <- app_assoc. f_equal. cbn. rewrite Nat.add_0_r. f_equal.
    apply imap_ext. intros j e' _. cbn.
    by replace (i + S j)%nat with (S (i + j)) by lia.
Qed.

(** The loop reads the clock only to stamp its points. *)
Lemma predict_loop_clock self clock1 clock2 weather_forecast hours n :
  forall i window acc1 acc2,
    match
      predict_loop self clock1 weather_forecast hours n i window acc1,
      predict_loop self clock2 weather_forecast hours n i window acc2
    with
    | Ok preds1, Ok preds2 =>
        exists es,
          preds1
          = acc1 ++ imap (fun j e => prediction (i + j) hours
                                       (clock1 (i + j)%nat) e) es
          /\ preds2
             = acc2 ++ imap (fun j e => prediction (i + j) hours
                                          (clock2 (i + j)%nat) e) es
          /\ length es = n
    | Raise e1, Raise e2 => e1 = e2
    | _, _ => False
    end.
Proof.
  induction n as [|n IH]; intros i window acc1 acc2.
  - cbn. exists []. cbn. by rewrite !app_nil_r.
  - cbn [predict_loop].
    destruct (ensemble self window) as [e|]; [|done]. cbn [bind].
    destruct (_create_feature_vector e i weather_forecast) as [nf|]; [|done].
    cbn [bind].
    specialize (IH (S i) (tail window ++ [nf])
                  (acc1 ++ [prediction i hours (clock1 i) e])
                  (acc2 ++ [prediction i hours (clock2 i) e])).
    destruct (predict_loop self clock1 _ _ _ _ _ _) as [p1|];
      destruct (predict_loop self clock2 _ _ _ _ _ _) as [p2|]; try done.
    destruct IH as (es & -> & -> & Hlen). exists (e :: es).
    rewrite <- !app_assoc. cbn. rewrite Nat.add_0_r, Hlen.
    repeat split; do 2 f_equal; apply imap_ext; intros j e' _; cbn;
      by replace (i + S j)%nat with (S (i + j)) by lia.
Qed.

End ForecasterLoop.

Section Rounding.
Import AQIPredictionModel.
Local Open Scope Q_scope.

Lemma round_half_even_nonneg (x : Q) :
  0 <= x -> (0 <= round_half_even x)%Z.
Proof.
  intros Hx. pose proof (Qfloor_resp_le 0 x Hx) as Hf.
  change (Qfloor 0) with 0%Z in Hf. unfold round_half_even.
  destruct (Qcompare _ _); [destruct (Z.even _)| |]; lia.
Qed.

Lemma round1_nonneg (x : Q) : 0 <= x -> 0 <= round1 x.
Proof.
  intros Hx. unfold round1.
  assert (0 <= x * 10) as Hx10 by lra.
  pose proof (round_half_even_nonneg _ Hx10) as Hr.
  apply Qle_shift_div_l; [reflexivity|].
  rewrite Qmult_0_l. change 0 with (inject_Z 0). by rewrite <- Zle_Qle.
Qed.



Lemma _calculate_confidence_range (i : nat) (hours : Z) :
  70 <= _calculate_confidence i hours /\ _calculate_confidence i hours <= 95.
Proof.
  unfold _calculate_confidence. split.
  - eapply Qle_trans; [|apply Q.le_max_l]. vm_compute; discriminate.
  - apply Q.max_lub; [vm_compute; discriminate|].
    eapply Qle_trans; [apply Q.le_min_l|]. vm_compute; discriminate.
Qed.


End Rounding.

Section PredictFacts.
Import AQIPredictionModel.

(** Every point returned by [predict] is built from the ensemble value of
    its own hour. *)
Lemma predict_points self clock historical_data weather_forecast hours preds :
  predict self clock historical_data weather_forecast hours = Ok preds ->
  length (ensembles self historical_data weather_forecast hours)
  = Z.to_nat hours
  /\ preds
     = imap (fun i e => prediction i hours (clock i) e)
            (ensembles self historical_data weather_forecast hours).
Proof.
  unfold predict, ensembles. intros Hrun.
  apply predict_loop_trace in Hrun as [-> Hlen]. by split.
Qed.

Lemma predict_point self clock historical_data weather_forecast hours preds
    i pt :
  predict self clock historical_data weather_forecast hours = Ok preds ->
  preds !! i = Some pt ->
  exists e,
    ensembles self historical_data weather_forecast hours !! i = Some e
    /\ pt = prediction i hours (clock i) e.
Proof.
  intros Hrun Hpt. apply predict_points in Hrun as [_ ->].
  rewrite list_lookup_imap in Hpt.
  destruct (ensembles _ _ _ _ !! i) as [e|]; [|done].
  injection Hpt as <-. by exists e.
Qed.

End PredictFacts.




(** C6 (as amended).  For every history and every number of hours, for
    every weather forecast that is not empty when at least one hour is
    asked for (so for every forecast of length at least [hours]), and with a
    sequence model that answers on every window, [predict] returns a list
    of exactly [hours] points (none when [hours <= 0]) whose hour offsets
    are 0, 1, ..., [hours - 1] in this order. *)
Theorem C6_forecast_length_and_offsets
    (self : AQIPredictionModel.t) (clock : nat -> PyTime.datetime)
    (historical_data weather_forecast : list (gmap string Q)) (hours : Z)
    (lstm : list AQIPredictionModel.FeatureVector -> option Q) :
  AQIPredictionModel.lstm_model self = Some lstm ->
  (forall window, is_Some (lstm window)) ->
  ((0 < hours)%Z -> weather_forecast <> []) ->
  exists preds,
    AQIPredictionModel.predict self clock historical_data weather_forecast
      hours = Ok preds
    /\ length preds = Z.to_nat hours
    /\ AQIPredictionModel.hour <$> preds = seq 0 (Z.to_nat hours).
Proof.
  intros Hlstm Htotal Hwf. unfold AQIPredictionModel.predict.
  destruct (predict_loop_total self clock weather_forecast hours lstm Hlstm
              Htotal (Z.to_nat hours) 0
              (AQIPredictionModel.last_n AQIPredictionModel.sequence_length
                 (AQIPredictionModel._prepare_features historical_data
                    weather_forecast)) [])
    as (preds & Hrun & Hhours).
  - intros Hn. apply Hwf. lia.
  - apply initial_window_nonempty.
  - exists preds. split; [exact Hrun|]. split; [|exact Hhours].
    rewrite <- (length_fmap AQIPredictionModel.hour), Hhours.
    apply length_seq.
Qed.

(** C6 at work: 48 hours forecast from a single weather reading. *)
Lemma C6_forecast_length_witness :
  exists preds,
    AQIPredictionModel.predict Sample.steady Sample.morning []
      [Sample.reading] 48 = Ok preds
    /\ length preds = 48%nat
    /\ AQIPredictionModel.hour <$> preds = seq 0 48.
Proof.
  apply (C6_forecast_length_and_offsets Sample.steady Sample.morning []
           [Sample.reading] 48 (fun _ => Some 120%Q)).
  - reflexivity.
  - intros window. by eexists.
  - discriminate.
Defined.

(** C6 (as stated) fails for the empty weather forecast: with every
    estimator answering, one hour asked for and no weather reading at all,
    [predict] raises [IndexError] and returns no point. *)
Lemma C6_forecast_length_counterexample :
  AQIPredictionModel.predict Sample.steady Sample.morning [] [] 1
  = Raise AQIPredictionModel.IndexError
  /\ ~ exists preds,
         AQIPredictionModel.predict Sample.steady Sample.morning [] [] 1
         = Ok preds
         /\ length preds = 1%nat.
Proof.
  split; [vm_compute; reflexivity|].
  intros (preds & Hrun & _). vm_compute in Hrun. discriminate Hrun.
Qed.

(** C8 (as amended).  Two runs of [predict] on identical
    [(historical_data, weather_forecast, hours)] agree on every field of
    every point but the timestamp, and fail alike: the points of one run are
    those of the other stamped with its own clock readings, point [i]
    carrying the reading of [datetime.now()] in iteration [i] plus [i]
    hours.  Runs that read the same clock agree on the timestamps too. *)
Theorem C8_reproducible_up_to_timestamps
    (self : AQIPredictionModel.t) (clock1 clock2 : nat -> PyTime.datetime)
    (historical_data weather_forecast : list (gmap string Q)) (hours : Z) :
  match
    AQIPredictionModel.predict self clock1 historical_data weather_forecast
      hours,
    AQIPredictionModel.predict self clock2 historical_data weather_forecast
      hours
  with
  | Ok preds1, Ok preds2 =>
      length preds1 = length preds2
      /\ (forall i pt1 pt2,
            preds1 !! i = Some pt1 -> preds2 !! i = Some pt2 ->
            AQIPredictionModel.hour pt1 = AQIPredictionModel.hour pt2
            /\ AQIPredictionModel.predicted_aqi pt1
               = AQIPredictionModel.predicted_aqi pt2
            /\ AQIPredictionModel.confidence pt1
               = AQIPredictionModel.confidence pt2
            /\ AQIPredictionModel.lower_bound pt1
               = AQIPredictionModel.lower_bound pt2
            /\ AQIPredictionModel.upper_bound pt1
               = AQIPredictionModel.upper_bound pt2
            /\ AQIPredictionModel.risk_level pt1
               = AQIPredictionModel.risk_level pt2
            /\ AQIPredictionModel.timestamp pt1
               = (clock1 i + PyTime.timedelta_hours (Z.of_nat i))%Z
            /\ AQIPredictionModel.timestamp pt2
               = (clock2 i + PyTime.timedelta_hours (Z.of_nat i))%Z)
      /\ ((forall i, (i < Z.to_nat hours)%nat -> clock1 i = clock2 i) ->
          preds1 = preds2)
  | Raise e1, Raise e2 => e1 = e2
  | _, _ => False
  end.
Proof.
  unfold AQIPredictionModel.predict.
  pose proof (predict_loop_clock self clock1 clock2 weather_forecast hours
                (Z.to_nat hours) 0
                (AQIPredictionModel.last_n AQIPredictionModel.sequence_length
                   (AQIPredictionModel._prepare_features historical_data
                      weather_forecast)) [] []) as Hruns.
  destruct (AQIPredictionModel.predict_loop self clock1 _ _ _ _ _ _)
    as [preds1|e1];
    destruct (AQIPredictionModel.predict_loop self clock2 _ _ _ _ _ _)
      as [preds2|e2]; try done.
  destruct Hruns as (es & -> & -> & Hlen). cbn [app].
  split; [by rewrite !length_imap|]. split.
  - intros i pt1 pt2 H1 H2. rewrite list_lookup_imap in H1, H2.
    destruct (es !! i) as [e|]; [|done].
    injection H1 as <-. injection H2 as <-. cbn. done.
  - intros Hclock. apply imap_ext. intros i e Hi. cbn.
    rewrite Hclock; [done|]. apply lookup_lt_Some in Hi. lia.
Qed.

(** C8 at work: the forecast of [Sample.steady] read at two different
    times differs in nothing but the timestamps. *)
Lemma C8_reproducible_witness :
  exists pt1 pt2,
    AQIPredictionModel.predict Sample.steady Sample.morning []
      [Sample.reading] 1 = Ok [pt1]
    /\ AQIPredictionModel.predict Sample.steady Sample.later []
         [Sample.reading] 1 = Ok [pt2]
    /\ AQIPredictionModel.predicted_aqi pt1
       = AQIPredictionModel.predicted_aqi pt2
    /\ AQIPredictionModel.risk_level pt1 = AQIPredictionModel.risk_level pt2.
Proof.
  pose proof (C8_reproducible_up_to_timestamps Sample.steady Sample.morning
                Sample.later [] [Sample.reading] 1) as H.
  destruct (AQIPredictionModel.predict Sample.steady Sample.morning []
              [Sample.reading] 1) as [[|pt1 [|? ?]]|] eqn:H1;
    [vm_compute in H1; discriminate H1| |vm_compute in H1; discriminate H1
    |vm_compute in H1; discriminate H1].
  destruct (AQIPredictionModel.predict Sample.steady Sample.later []
              [Sample.reading] 1) as [[|pt2 [|? ?]]|] eqn:H2;
    [vm_compute in H2; discriminate H2| |vm_compute in H2; discriminate H2
    |vm_compute in H2; discriminate H2].
  destruct H as (_ & Hfields & _).
  destruct (Hfields 0%nat pt1 pt2 eq_refl eq_refl)
    as (_ & Haqi & _ & _ & _ & Hrisk & _).
  exists pt1, pt2.
  split; [reflexivity|]. split; [reflexivity|].
  split; [exact Haqi|exact Hrisk].
Defined.

(** C8 (as stated) fails on the timestamps: the same history, weather and
    number of hours, forecast at eight and at nine o'clock, give two
    different outputs. *)
Lemma C8_reproducible_counterexample :
  AQIPredictionModel.predict Sample.steady Sample.morning [] [Sample.reading] 1
  <> AQIPredictionModel.predict Sample.steady Sample.later [] [Sample.reading] 1
  /\ (AQIPredictionModel.timestamp
        <$> default []
              (match AQIPredictionModel.predict Sample.steady Sample.morning
                       [] [Sample.reading] 1 with
               | Ok preds => Some preds
               | Raise _ => None
               end)) = [Sample.at_second 28800]
  /\ (AQIPredictionModel.timestamp
        <$> default []
              (match AQIPredictionModel.predict Sample.steady Sample.later
                       [] [Sample.reading] 1 with
               | Ok preds => Some preds
               | Raise _ => None
               end)) = [Sample.at_second 32400].
Proof.
  split; [|split; vm_compute; reflexivity].
  vm_compute. intros H. discriminate H.
Qed.

(** C2 (what the code does).  The two point estimators go through
    [_safe_predict], which answers 150.0 for an estimator that raises or has
    no [predict]; the sequence model is called directly, and when it fails on
    the first window of a forecast of at least one hour, [predict] raises
    and returns no prediction at all. *)
Theorem C2_sequence_model_failure_is_raised
    (self : AQIPredictionModel.t) (clock : nat -> PyTime.datetime)
    (historical_data weather_forecast : list (gmap string Q)) (hours : Z) :
  (forall features,
     AQIPredictionModel._safe_predict None features = 150.0%Q
     /\ AQIPredictionModel._safe_predict (Some (fun _ => None)) features
        = 150.0%Q)
  /\ ((0 < hours)%Z ->
      AQIPredictionModel.lstm_predict self
        (AQIPredictionModel._prepare_features historical_data weather_forecast)
      = Raise AQIPredictionModel.EstimatorError ->
      AQIPredictionModel.predict self clock historical_data weather_forecast
        hours
      = Raise AQIPredictionModel.EstimatorError).
Proof.
  split; [done|]. intros Hhours Hfail. unfold AQIPredictionModel.predict.
  rewrite initial_window.
  destruct (Z.to_nat hours) as [|n] eqn:Hn; [lia|].
  cbn [AQIPredictionModel.predict_loop]. unfold AQIPredictionModel.ensemble.
  by rewrite Hfail.
Qed.

(** C2 at the failing input: a sequence model whose [predict] raises, next
    to two point estimators that answer. *)
Lemma C2_sequence_model_failure_witness :
  AQIPredictionModel.predict Sample.broken Sample.morning [] [Sample.reading] 1
  = Raise AQIPredictionModel.EstimatorError.
Proof.
  apply (proj2 (C2_sequence_model_failure_is_raised Sample.broken
                  Sample.morning [] [Sample.reading] 1)).
  - reflexivity.
  - vm_compute. reflexivity.
Defined.

(** ** The prediction service *)

Section ServiceFacts.
Import PredictionService.
Implicit Types (self : PredictionService.t) (c : string).








End ServiceFacts.




(** * Further properties *)

(** ** The cache: deletion, overwriting and the sweep *)

(** X1.  After [delete(k)], [get(k)] returns [None] at any time, and the
    answers for every other key are what they were; deleting a key that is
    not in the cache changes nothing (it does not raise); after [clear()]
    every [get] returns [None]. *)
Theorem X1_cache_delete_and_clear {Value : Type}
    (self : Cache.t Value) (k k' : string) (now : PyTime.datetime) :
  (Cache.get (Cache.delete self k) k now).1 = None
  /\ (k' <> k ->
      (Cache.get (Cache.delete self k) k' now).1 = (Cache.get self k' now).1)
  /\ (Cache.cache self !! k = None -> Cache.delete self k = self)
  /\ (Cache.get (Cache.clear self) k now).1 = None.
Proof.
  split; [|split; [|split]].
  - unfold Cache.get, Cache.delete. cbn. by rewrite lookup_delete_eq.
  - intros Hne. unfold Cache.get, Cache.delete. cbn.
    rewrite lookup_delete_ne by done.
    destruct (Cache.cache self !! k') as [e|]; [|done]. by case_decide.
  - intros Hk. destruct self as [m ttl]. unfold Cache.delete. cbn in *.
    f_equal. by apply delete_id.
  - unfold Cache.get, Cache.clear. cbn. by rewrite lookup_empty.
Qed.

(** X1 at work: deleting one of two cached forecasts. *)
Lemma X1_cache_delete_witness :
  let c :=
    Cache.set (Cache.set (Cache.init 3600) "Delhi_48" 212%Z None 0%Z)
              "Pune_48" 90%Z None 0%Z in
  (Cache.get (Cache.delete c "Delhi_48") "Pune_48" 5%Z).1 = Some 90%Z
  /\ Cache.delete (Cache.init (Value := Z) 3600) "Delhi_48" = Cache.init 3600.
Proof.
  intros c. split.
  - rewrite (proj1 (proj2 (X1_cache_delete_and_clear c "Delhi_48" "Pune_48"
                             5%Z))); [reflexivity|discriminate].
  - apply (proj1 (proj2 (proj2 (X1_cache_delete_and_clear
                                  (Cache.init (Value := Z) 3600) "Delhi_48"
                                  "Delhi_48" 0%Z)))).
    reflexivity.
Defined.



(** X3.  A pass of the background sweep at [now] deletes exactly the
    entries whose expiry lies before [now] and touches no other; and it
    cannot be observed through [get]: at [now] or later, [get] answers the
    same with and without the pass. *)
Theorem X3_cache_sweep_is_invisible {Value : Type}
    (self : Cache.t Value) (k : string) (now later : PyTime.datetime) :
  let swept := Cache._cleanup_task self now in
  (forall e, Cache.cache swept !! k = Some e ->
             Cache.cache self !! k = Some e /\ (now <= Cache.expiry e)%Z)
  /\ (forall e, Cache.cache self !! k = Some e -> (now <= Cache.expiry e)%Z ->
                Cache.cache swept !! k = Some e)
  /\ ((now <= later)%Z ->
      (Cache.get swept k later).1 = (Cache.get self k later).1).
Proof.
  intros swept. subst swept.
  pose proof (cleanup_lookup self now k) as Hlook.
  split; [|split].
  - intros e He. rewrite Hlook in He.
    destruct (Cache.cache self !! k) as [e'|]; [|done].
    case_decide; [done|]. injection He as <-. split; [done|lia].
  - intros e He Hle. rewrite Hlook, He. case_decide; [lia|done].
  - intros Hle. unfold Cache.get. rewrite Hlook.
    destruct (Cache.cache self !! k) as [e|]; [|done].
    repeat case_decide; try done; lia.
Qed.

(** X3 at work: a sweep at second 20 over an entry that expired at second
    10 and one that expires at second 3600. *)
Lemma X3_cache_sweep_witness :
  let c :=
    Cache.set (Cache.set (Cache.init 3600) "Delhi_48" 212%Z (Some 10%Z) 0%Z)
              "Pune_48" 90%Z None 0%Z in
  let swept := Cache._cleanup_task c 20000000%Z in
  (Cache.get swept "Pune_48" 30000000%Z).1 = (Cache.get c "Pune_48" 30000000%Z).1
  /\ Cache.cache swept !! "Pune_48"
     = Some (Cache.Entry 90%Z 3600000000%Z).
Proof.
  intros c swept.
  pose proof (X3_cache_sweep_is_invisible c "Pune_48" 20000000%Z 30000000%Z)
    as (_ & Hkeep & Hsame).
  split; [apply Hsame; lia|].
  apply Hkeep; [vm_compute; reflexivity|cbn; lia].
Defined.

(** ** The [cached] decorator *)

Section CachedFacts.
Context {V E : Type}.
Implicit Types (self : Cache.t (option V)) (outcome : result E (option V)).



End CachedFacts.



(** ** The rate limiter: sweeps and runs *)

Section LimiterFacts.
Import RateLimiter.
Implicit Types (self : RateLimiter.t) (l : list Z).
Local Open Scope Z_scope.

Lemma newer_than_twice cutoff1 cutoff2 l :
  cutoff2 <= cutoff1 ->
  newer_than cutoff1 (newer_than cutoff2 l) = newer_than cutoff1 l.
Proof.
  intros Hc. unfold newer_than. induction l as [|x l IH]; [done|].
  rewrite !filter_cons. repeat case_decide; rewrite ?filter_cons;
    repeat case_decide; try lia; by rewrite ?IH.
Qed.

Lemma newer_than_antitone cutoff1 cutoff2 l :
  cutoff2 <= cutoff1 ->
  (length (newer_than cutoff1 l) <= length (newer_than cutoff2 l))%nat.
Proof. intros Hc. by apply submseteq_length, newer_than_weaken. Qed.

Lemma newer_than_snoc cutoff l ts :
  (length (newer_than cutoff (l ++ [ts])) <= S (length (newer_than cutoff l)))%nat.
Proof.
  unfold newer_than. rewrite filter_app, length_app, filter_cons, filter_nil.
  case_decide; cbn; lia.
Qed.

(** The outcome of a check is a function of the two limits and of the two
    counts. *)
Lemma check_outcome self request now :
  (check_rate_limit self request now).1
  = if decide (rpm_limit self <= minute_count self (_get_client_id request) now)
    then Raise (PerMinuteExceeded (rpm_limit self))
    else if decide (rph_limit self
                    <= hour_count self (_get_client_id request) now)
         then Raise (PerHourExceeded (rph_limit self))
         else Ok ().
Proof.
  unfold check_rate_limit, minute_count, hour_count. by repeat case_decide.
Qed.

Lemma cleanup_counts self sweep_time now client_id :
  sweep_time <= now ->
  minute_count (_cleanup_old_requests self sweep_time) client_id now
  = minute_count self client_id now
  /\ hour_count (_cleanup_old_requests self sweep_time) client_id now
     = hour_count self client_id now.
Proof.
  intros Hle. unfold minute_count, hour_count, _cleanup_old_requests. cbn.
  rewrite !bucket_trim, !newer_than_twice; [done| |];
    unfold PyTime.timedelta_minutes, PyTime.timedelta_hours,
      PyTime.timedelta_seconds, PyTime.microseconds_per_second; lia.
Qed.

End LimiterFacts.

(** X5.  Pruning never changes a decision: a request checked at [now] is
    allowed or denied, and for the same reason, whether or not
    [_cleanup_old_requests] has run at some time up to [now]; the counts of
    the trailing minute and of the trailing hour are those of the unpruned
    limiter. *)
Theorem X5_pruning_never_changes_a_decision
    (self : RateLimiter.t) (request : RateLimiter.Request)
    (sweep_time now : PyTime.datetime) (client_id : string) :
  (sweep_time <= now)%Z ->
  let pruned := RateLimiter._cleanup_old_requests self sweep_time in
  (RateLimiter.check_rate_limit pruned request now).1
  = (RateLimiter.check_rate_limit self request now).1
  /\ RateLimiter.minute_count pruned client_id now
     = RateLimiter.minute_count self client_id now
  /\ RateLimiter.hour_count pruned client_id now
     = RateLimiter.hour_count self client_id now.
Proof.
  intros Hle pruned. subst pruned. split; [|by apply cleanup_counts].
  rewrite !check_outcome.
  destruct (cleanup_counts self sweep_time now
              (RateLimiter._get_client_id request) Hle) as [-> ->].
  reflexivity.
Qed.

(** X5 at work: the fourth request of [Sample.busy] is denied after a sweep
    as it is without. *)
Lemma X5_pruning_witness :
  (RateLimiter.check_rate_limit
     (RateLimiter._cleanup_old_requests Sample.busy (Sample.at_second 3))
     Sample.proxied (Sample.at_second 3)).1
  = Raise (RateLimiter.PerMinuteExceeded 3).
Proof.
  rewrite (proj1 (X5_pruning_never_changes_a_decision Sample.busy
                    Sample.proxied (Sample.at_second 3) (Sample.at_second 3)
                    "203.0.113.7" ltac:(lia))).
  vm_compute. reflexivity.
Defined.

(** X6.  After [_cleanup_old_requests] at [now], a client has an entry in
    [minute_buckets] only if it has a request newer than two minutes, and
    the entry holds exactly its requests newer than two minutes, in their
    order; the same for [hour_buckets] and two hours.  No empty list is
    left behind, and the limits are unchanged. *)
Theorem X6_pruning_leaves_no_empty_bucket
    (self : RateLimiter.t) (now : PyTime.datetime) (client_id : string) :
  let pruned := RateLimiter._cleanup_old_requests self now in
  (forall l, RateLimiter.minute_buckets pruned !! client_id = Some l ->
     l <> []
     /\ l = RateLimiter.newer_than (now - PyTime.timedelta_minutes 2)%Z
              (RateLimiter.bucket (RateLimiter.minute_buckets self) client_id)
     /\ Forall (fun ts => (now - PyTime.timedelta_minutes 2 < ts)%Z) l)
  /\ (forall l, RateLimiter.hour_buckets pruned !! client_id = Some l ->
        l <> []
        /\ l = RateLimiter.newer_than (now - PyTime.timedelta_hours 2)%Z
                 (RateLimiter.bucket (RateLimiter.hour_buckets self) client_id)
        /\ Forall (fun ts => (now - PyTime.timedelta_hours 2 < ts)%Z) l)
  /\ RateLimiter.rpm_limit pruned = RateLimiter.rpm_limit self
  /\ RateLimiter.rph_limit pruned = RateLimiter.rph_limit self.
Proof.
  intros pruned. subst pruned.
  assert (forall cutoff d l,
            RateLimiter.trim cutoff d !! client_id = Some l ->
            l <> []
            /\ l = RateLimiter.newer_than cutoff (RateLimiter.bucket d client_id)
            /\ Forall (fun ts => (cutoff < ts)%Z) l) as Htrim.
  { intros cutoff d l. unfold RateLimiter.trim, RateLimiter.bucket.
    rewrite lookup_omap.
    destruct (d !! client_id) as [l0|]; cbn -[RateLimiter.newer_than];
      [|done].
    destruct (RateLimiter.newer_than cutoff l0) as [|x l'] eqn:Hn; [done|].
    intros [= <-]. split; [done|]. split; [done|].
    rewrite <- Hn. unfold RateLimiter.newer_than.
    apply Forall_forall. intros ts Hts.
    by apply list_elem_of_filter in Hts as [? _]. }
  unfold RateLimiter._cleanup_old_requests. cbn.
  split; [apply Htrim|]. split; [apply Htrim|]. done.
Qed.

(** X6 at work: a sweep at second 150 over [Sample.busy] drops the minute
    window of the client and keeps its hour window. *)
Lemma X6_pruning_witness :
  let pruned :=
    RateLimiter._cleanup_old_requests Sample.busy (Sample.at_second 150) in
  RateLimiter.minute_buckets pruned !! "203.0.113.7" = None
  /\ forall l, RateLimiter.hour_buckets pruned !! "203.0.113.7" = Some l ->
               l <> [].
Proof.
  intros pruned. split; [vm_compute; reflexivity|].
  intros l Hl.
  by destruct (proj1 (proj2 (X6_pruning_leaves_no_empty_bucket Sample.busy
                               (Sample.at_second 150) "203.0.113.7")) l Hl).
Defined.

Section LimiterRuns.
Import RateLimiter.
Local Open Scope Z_scope.

Import LimiterRun.

Lemma step_bounded rpm rph self T ev :
  bounded rpm rph self T -> T <= LimiterRun.event_time ev ->
  bounded rpm rph (LimiterRun.step self ev) (LimiterRun.event_time ev).
Proof.
  intros (Hrpm & Hrph & Hcount) HT. destruct ev as [request t|t]; cbn in *.
  - destruct (check_limits self request t) as [Hrpm' Hrph'].
    split; [congruence|]. split; [congruence|].
    intros client_id now Hnow.
    destruct (check_rate_limit self request t).1 as [[]|e] eqn:Hout.
    + pose proof (check_outcome self request t) as Hwhy.
      rewrite Hout in Hwhy. repeat case_decide; try discriminate.
      destruct (check_allowed_windows self request t client_id Hout)
        as [Hm Hh].
      unfold minute_count, hour_count. rewrite Hm, Hh.
      destruct (Hcount client_id now ltac:(lia)) as [Hcm Hch].
      case_decide as Hc; [subst client_id|done].
      unfold minute_count, hour_count in *.
      pose proof (newer_than_snoc (now - PyTime.timedelta_minutes 1)
                    (bucket (minute_buckets self) (_get_client_id request)) t).
      pose proof (newer_than_snoc (now - PyTime.timedelta_hours 1)
                    (bucket (hour_buckets self) (_get_client_id request)) t).
      pose proof (newer_than_antitone (now - PyTime.timedelta_minutes 1)
                    (t - PyTime.timedelta_minutes 1)
                    (bucket (minute_buckets self) (_get_client_id request))
                    ltac:(lia)).
      pose proof (newer_than_antitone (now - PyTime.timedelta_hours 1)
                    (t - PyTime.timedelta_hours 1)
                    (bucket (hour_buckets self) (_get_client_id request))
                    ltac:(lia)).
      lia.
    + destruct (check_denied_windows self request t e client_id Hout)
        as [Hm Hh].
      unfold minute_count, hour_count. rewrite Hm, Hh.
      apply (Hcount client_id now). lia.
  - split; [done|]. split; [done|]. intros client_id now Hnow.
    destruct (cleanup_counts self t now client_id Hnow) as [-> ->].
    apply Hcount. lia.
Qed.

Lemma run_bounded rpm rph evs :
  forall self T,
    bounded rpm rph self T -> LimiterRun.in_order T evs ->
    bounded rpm rph (LimiterRun.run self evs) (LimiterRun.end_time T evs).
Proof.
  induction evs as [|ev evs IH]; intros self T Hb Hord; [done|].
  destruct Hord as [HT Hord]. cbn.
  apply IH; [|done]. by apply (step_bounded rpm rph self T).
Qed.

Lemma init_bounded rpm rph T :
  0 <= rpm -> 0 <= rph -> bounded rpm rph (init (Some rpm) (Some rph)) T.
Proof.
  intros Hrpm Hrph. split; [done|]. split; [done|].
  intros client_id now _. unfold minute_count, hour_count, bucket. cbn.
  rewrite lookup_empty. cbn. lia.
Qed.

(** The statement of X7, for any limiter within its limits. *)
Lemma run_within_limits rpm rph start evs client_id now :
  0 <= rpm -> 0 <= rph ->
  LimiterRun.in_order start evs ->
  LimiterRun.end_time start evs <= now ->
  minute_count (LimiterRun.run (init (Some rpm) (Some rph)) evs) client_id now
    <= rpm
  /\ hour_count (LimiterRun.run (init (Some rpm) (Some rph)) evs) client_id now
     <= rph.
Proof.
  intros Hrpm Hrph Hord Hnow.
  destruct (run_bounded rpm rph evs _ start
              (init_bounded rpm rph start Hrpm Hrph) Hord) as (_ & _ & Hcount).
  by apply Hcount.
Qed.

End LimiterRuns.

(** X7.  The limiter keeps its promise.  Start a limiter with limits
    [rpm >= 0] and [rph >= 0] and let it check requests and sweep in any
    order, the clock never going back: at any time from the last event on,
    no client has more than [rpm] recorded (that is, admitted) requests
    within the trailing minute, nor more than [rph] within the trailing
    hour. *)
Theorem X7_admitted_requests_stay_within_limits
    (rpm rph : Z) (start : PyTime.datetime) (evs : list LimiterRun.event)
    (client_id : string) (now : PyTime.datetime) :
  (0 <= rpm)%Z -> (0 <= rph)%Z ->
  LimiterRun.in_order start evs ->
  (LimiterRun.end_time start evs <= now)%Z ->
  let self := LimiterRun.run (RateLimiter.init (Some rpm) (Some rph)) evs in
  (RateLimiter.minute_count self client_id now <= rpm)%Z
  /\ (RateLimiter.hour_count self client_id now <= rph)%Z.
Proof. intros. by apply (run_within_limits rpm rph start). Qed.

(** X7 at work: five requests within four seconds against a limit of
    three, with a sweep in between. *)
Lemma X7_admitted_requests_witness :
  let evs :=
    [ LimiterRun.Checked Sample.proxied (Sample.at_second 0);
      LimiterRun.Checked Sample.proxied (Sample.at_second 1);
      LimiterRun.Swept (Sample.at_second 1);
      LimiterRun.Checked Sample.proxied (Sample.at_second 2);
      LimiterRun.Checked Sample.proxied (Sample.at_second 3);
      LimiterRun.Checked Sample.proxied (Sample.at_second 4) ] in
  (RateLimiter.minute_count
     (LimiterRun.run (RateLimiter.init (Some 3%Z) (Some 1000%Z)) evs)
     "203.0.113.7" (Sample.at_second 4) <= 3)%Z.
Proof.
  intros evs.
  apply (X7_admitted_requests_stay_within_limits 3 1000 0%Z evs
           "203.0.113.7" (Sample.at_second 4)).
  - lia.
  - lia.
  - vm_compute. repeat split; congruence.
  - vm_compute. congruence.
Defined.

Section ClientIdFacts.
Import RateLimiter.







End ClientIdFacts.



(** ** The forecaster: features, confidence and shapes *)

Section FeatureFacts.
Import AQIPredictionModel.

Lemma replicate_snoc_cons {A} (d : nat) (x : A) (l : list A) :
  replicate d x ++ x :: l = x :: replicate d x ++ l.
Proof. induction d as [|d IH]; cbn; [done|]. by rewrite IH. Qed.

Lemma pad_cons deficit (x : FeatureVector) (l : list FeatureVector) :
  pad deficit (x :: l) = replicate deficit x ++ x :: l.
Proof.
  revert l. induction deficit as [|d IH]; intros l; [done|].
  cbn [pad]. rewrite IH. cbn [replicate]. by rewrite replicate_snoc_cons.
Qed.

Lemma pad_nil deficit :
  pad deficit [] = replicate deficit (replicate n_features 150%Q).
Proof.
  destruct deficit as [|d]; [done|]. cbn [pad]. rewrite pad_cons.
  cbn [replicate]. by rewrite replicate_snoc_cons, app_nil_r.
Qed.

Lemma _prepare_features_rows historical_data weather_forecast :
  _prepare_features historical_data weather_forecast
  = pad (sequence_length
         - length (Shapes.feature_row
                     <$> last_n sequence_length historical_data))
        (Shapes.feature_row <$> last_n sequence_length historical_data).
Proof. reflexivity. Qed.

End FeatureFacts.

(** X9.  [_prepare_features] always returns 24 rows of 10 features and
    never looks at the weather forecast.  With 24 records or more the rows
    are those of the last 24 records; with fewer, the row of the earliest
    record is repeated in front until there are 24; with no record at all
    every row is ten times 150. *)
Theorem X9_feature_matrix_is_padded_in_front
    (historical_data weather_forecast : list (gmap string Q)) :
  let features :=
    AQIPredictionModel._prepare_features historical_data weather_forecast in
  length features = 24%nat
  /\ Forall (fun row => length row = 10%nat) features
  /\ features = AQIPredictionModel._prepare_features historical_data []
  /\ ((24 <= length historical_data)%nat ->
      features
      = Shapes.feature_row
          <$> drop (length historical_data - 24) historical_data)
  /\ (forall record rest,
        historical_data = record :: rest ->
        (length historical_data < 24)%nat ->
        features
        = replicate (24 - length historical_data) (Shapes.feature_row record)
          ++ (Shapes.feature_row <$> historical_data))
  /\ (historical_data = [] -> features = replicate 24 (replicate 10 150%Q)).
Proof.
  intros features. subst features.
  assert (forall record rest,
            historical_data = record :: rest ->
            (length historical_data < 24)%nat ->
            AQIPredictionModel._prepare_features historical_data
              weather_forecast
            = replicate (24 - length historical_data)
                (Shapes.feature_row record)
              ++ (Shapes.feature_row <$> historical_data)) as Hshort.
  { intros record rest -> Hlen. rewrite _prepare_features_rows.
    unfold AQIPredictionModel.last_n, AQIPredictionModel.sequence_length.
    replace (length (record :: rest) - 24)%nat with 0%nat by lia.
    cbn [drop fmap list_fmap]. rewrite length_cons, length_fmap.
    rewrite pad_cons. by rewrite length_cons. }
  assert ((24 <= length historical_data)%nat ->
          AQIPredictionModel._prepare_features historical_data weather_forecast
          = Shapes.feature_row
              <$> drop (length historical_data - 24) historical_data)
    as Hlong.
  { intros Hlen. rewrite _prepare_features_rows.
    unfold AQIPredictionModel.last_n, AQIPredictionModel.sequence_length.
    rewrite length_fmap, length_drop.
    by replace (24 - (length historical_data - (length historical_data - 24)))%nat
      with 0%nat by lia. }
  assert (historical_data = [] ->
          AQIPredictionModel._prepare_features historical_data weather_forecast
          = replicate 24 (replicate 10 150%Q)) as Hnone.
  { intros ->.
    change (AQIPredictionModel._prepare_features [] weather_forecast)
      with (AQIPredictionModel.pad 24 []).
    by rewrite pad_nil. }
  split; [apply _prepare_features_length|].
  split; [|split; [reflexivity|split; [exact Hlong|split; [exact Hshort|exact Hnone]]]].
  destruct (decide (24 <= length historical_data)%nat) as [Hlen|Hlen].
  - rewrite (Hlong Hlen). apply Forall_fmap, Forall_forall. by intros r _.
  - destruct historical_data as [|record rest].
    + rewrite (Hnone eq_refl). apply Forall_replicate. by rewrite length_replicate.
    + rewrite (Hshort record rest eq_refl ltac:(lia)).
      apply Forall_app. split; [by apply Forall_replicate|].
      apply Forall_fmap, Forall_forall. by intros r _.
Qed.

(** X9 at work: a history of one record. *)
Lemma X9_feature_matrix_witness :
  AQIPredictionModel._prepare_features [Sample.reading] []
  = replicate 24 (Shapes.feature_row Sample.reading).
Proof.
  pose proof (X9_feature_matrix_is_padded_in_front [Sample.reading] [])
    as (_ & _ & _ & _ & Hshort & _).
  rewrite (Hshort Sample.reading [] eq_refl ltac:(cbn; lia)). reflexivity.
Defined.

Section RoundingOrder.
Import AQIPredictionModel.
Local Open Scope Q_scope.

Lemma round_half_even_mono (x y : Q) :
  x <= y -> (round_half_even x <= round_half_even y)%Z.
Proof.
  intros Hxy.
  pose proof (Qfloor_resp_le x y Hxy) as Hf.
  pose proof (Qfloor_le x) as Hx1. pose proof (Qlt_floor x) as Hx2.
  pose proof (Qfloor_le y) as Hy1. pose proof (Qlt_floor y) as Hy2.
  rewrite inject_Z_plus in Hx2, Hy2. change (inject_Z 1) with 1 in Hx2, Hy2.
  unfold round_half_even.
  destruct (Z.eq_dec (Qfloor x) (Qfloor y)) as [Heq|Hne].
  - rewrite <- Heq in *.
    destruct (Qcompare_spec (x - inject_Z (Qfloor x)) (1 # 2));
      destruct (Qcompare_spec (y - inject_Z (Qfloor x)) (1 # 2));
      destruct (Z.even (Qfloor x)); first [lia | exfalso; lra].
  - assert (Qfloor x + 1 <= Qfloor y)%Z as Hstep by lia.
    destruct (Qcompare_spec (x - inject_Z (Qfloor x)) (1 # 2));
      destruct (Qcompare_spec (y - inject_Z (Qfloor y)) (1 # 2));
      destruct (Z.even (Qfloor x)); destruct (Z.even (Qfloor y)); lia.
Qed.

Lemma round1_mono (x y : Q) : x <= y -> round1 x <= round1 y.
Proof.
  intros Hxy. unfold round1.
  assert (x * 10 <= y * 10) as H10 by lra.
  apply round_half_even_mono in H10. rewrite Zle_Qle in H10.
  unfold Qdiv. apply Qmult_le_compat_r; [exact H10|]. vm_compute. discriminate.
Qed.



End RoundingOrder.



Section ShapeFacts.
Import AQIPredictionModel Shapes.

Lemma is_window_spec (window : list FeatureVector) :
  is_window window = true
  <-> length window = sequence_length
      /\ Forall (fun row => length row = n_features) window.
Proof.
  unfold is_window. rewrite andb_true_iff, Nat.eqb_eq.
  rewrite <- Is_true_true, forallb_True.
  split; intros [Hlen Hrows]; (split; [done|]);
    eapply Forall_impl; try exact Hrows; intros row; cbn;
    unfold is_row; rewrite Is_true_true, Nat.eqb_eq; done.
Qed.

Lemma pad_rows deficit (l : list FeatureVector) :
  Forall (fun row => length row = n_features) l ->
  Forall (fun row => length row = n_features) (pad deficit l).
Proof.
  revert l. induction deficit as [|d IH]; intros l Hl; [done|].
  cbn [pad]. apply IH. constructor; [|done].
  destruct Hl; [by rewrite length_replicate|done].
Qed.

Lemma initial_window_shape historical_data weather_forecast :
  is_window (last_n sequence_length
               (_prepare_features historical_data weather_forecast)) = true.
Proof.
  rewrite initial_window. apply is_window_spec.
  split; [apply _prepare_features_length|].
  unfold _prepare_features. apply pad_rows.
  apply Forall_forall. intros row Hrow.
  apply list_elem_of_In, in_map_iff in Hrow as (record & <- & _). done.
Qed.

Lemma next_window_shape window predicted_aqi i weather_forecast new_feature :
  is_window window = true ->
  _create_feature_vector predicted_aqi i weather_forecast = Ok new_feature ->
  is_window (tail window ++ [new_feature]) = true.
Proof.
  rewrite !is_window_spec. intros [Hlen Hrows] Hnew. split.
  - rewrite length_app, length_tl, Hlen. reflexivity.
  - apply Forall_app. split; [by apply Forall_tail|].
    constructor; [|done]. unfold _create_feature_vector in Hnew.
    destruct (match weather_forecast !! i with
              | Some w => Ok w
              | None => match last weather_forecast with
                        | Some w => Ok w
                        | None => Raise IndexError
                        end
              end) as [w|]; cbn in Hnew; [|discriminate Hnew].
    by injection Hnew as <-.
Qed.

Lemma ensemble_shape_checked self window :
  is_window window = true ->
  ensemble (shape_checked self) window = ensemble self window.
Proof.
  intros Hwin. unfold ensemble, lstm_predict, shape_checked, only_on.
  cbn [lstm_model rf_model gb_model].
  destruct (lstm_model self) as [lstm|]; [|done]. rewrite Hwin.
  destruct (lstm window) as [y|]; [|done]. cbn [bind].
  destruct (last window) as [row|] eqn:Hlast; [|done]. cbn [bind].
  assert (is_row row = true) as Hrow.
  { apply is_window_spec in Hwin as [_ Hrows].
    apply last_Some_elem_of in Hlast.
    rewrite Forall_forall in Hrows. unfold is_row.
    by rewrite (Hrows row Hlast), Nat.eqb_refl. }
  unfold _safe_predict.
  destruct (rf_model self) as [rf|]; destruct (gb_model self) as [gb|];
    by rewrite ?Hrow.
Qed.

Lemma predict_loop_shape_checked self clock weather_forecast hours n :
  forall i window acc,
    is_window window = true ->
    predict_loop (shape_checked self) clock weather_forecast hours n i window
      acc
    = predict_loop self clock weather_forecast hours n i window acc.
Proof.
  induction n as [|n IH]; intros i window acc Hwin; [done|].
  cbn [predict_loop]. rewrite (ensemble_shape_checked self window Hwin).
  destruct (ensemble self window) as [e|]; [|done]. cbn [bind].
  destruct (_create_feature_vector e i weather_forecast) as [nf|] eqn:Hnf;
    [|done].
  cbn [bind]. apply IH. by eapply next_window_shape.
Qed.

End ShapeFacts.

(** X11.  The window that [predict] rolls forward keeps its shape: the
    sequence model is only ever called on windows of 24 rows of 10
    features, and the two point estimators only on rows of 10 features.
    A model object that raises on every input of another shape therefore
    behaves in [predict] exactly like the one that does not. *)
Theorem X11_models_only_see_well_shaped_input
    (self : AQIPredictionModel.t) (clock : nat -> PyTime.datetime)
    (historical_data weather_forecast : list (gmap string Q)) (hours : Z) :
  AQIPredictionModel.predict (Shapes.shape_checked self) clock historical_data
    weather_forecast hours
  = AQIPredictionModel.predict self clock historical_data weather_forecast
      hours.
Proof.
  unfold AQIPredictionModel.predict.
  apply predict_loop_shape_checked, initial_window_shape.
Qed.

Section BracketFacts.
Import AQIPredictionModel.
Local Open Scope Q_scope.

(** The half-width factor of the interval lies between 0.01 and 0.06. *)
Lemma spread_range (i : nat) (hours : Z) :
  (1 # 100) <= (1 - _calculate_confidence i hours / 100) * 0.2
  /\ (1 - _calculate_confidence i hours / 100) * 0.2 <= (6 # 100).
Proof.
  destruct (_calculate_confidence_range i hours) as [Hlo Hhi].
  assert (_calculate_confidence i hours / 100
          == _calculate_confidence i hours * (1 # 100)) as ->
    by (unfold Qdiv; reflexivity).
  split; lra.
Qed.

Lemma prediction_bracket (i : nat) (hours : Z) (now : Z) (ens : Q) :
  let pt := prediction i hours now ens in
  (0 <= ens ->
   lower_bound pt <= predicted_aqi pt /\ predicted_aqi pt <= upper_bound pt)
  /\ (ens <= 0 ->
      predicted_aqi pt == 0 /\ lower_bound pt == 0 /\ upper_bound pt <= 0).
Proof.
  intros pt. subst pt. cbn.
  destruct (spread_range i hours) as [Hs1 Hs2].
  set (s := (1 - _calculate_confidence i hours / 100) * 0.2) in *.
  assert (round1 0 == 0) as Hzero by reflexivity.
  split.
  - intros Hens.
    assert (0 <= ens * s) as Hprod by (apply Qmult_le_0_compat; lra).
    assert (ens * (1 - s) <= ens) as Hlow by lra.
    assert (ens <= ens * (1 + s)) as Hup by lra.
    split.
    + apply Q.max_le_compat_l. by apply round1_mono.
    + apply Q.max_lub.
      * apply round1_nonneg. lra.
      * by apply round1_mono.
  - intros Hens.
    assert (0 <= - ens * s) as Hprod by (apply Qmult_le_0_compat; lra).
    assert (ens * (1 - s) <= 0) as Hlow.
    { assert (0 <= - ens * (1 - s)) by (apply Qmult_le_0_compat; lra). lra. }
    assert (ens * (1 + s) <= 0) as Hup by lra.
    apply round1_mono in Hens, Hlow, Hup. rewrite Hzero in Hens, Hlow, Hup.
    split; [by apply Q.max_l|]. split; [by apply Q.max_l|done].
Qed.

End BracketFacts.

(** X12.  The interval brackets the point estimate whenever the ensemble
    value is not negative: for every point returned by [predict] then,
    [lower_bound <= predicted_aqi <= upper_bound].  When the ensemble value
    is zero or negative the point estimate and the lower bound are both 0
    and the upper bound is not above 0. *)
Theorem X12_interval_brackets_the_estimate
    (self : AQIPredictionModel.t) (clock : nat -> PyTime.datetime)
    (historical_data weather_forecast : list (gmap string Q)) (hours : Z)
    (preds : list AQIPredictionModel.Prediction) (i : nat)
    (pt : AQIPredictionModel.Prediction) (ens : Q) :
  AQIPredictionModel.predict self clock historical_data weather_forecast hours
  = Ok preds ->
  preds !! i = Some pt ->
  AQIPredictionModel.ensembles self historical_data weather_forecast hours !! i
  = Some ens ->
  ((0 <= ens)%Q ->
   (AQIPredictionModel.lower_bound pt <= AQIPredictionModel.predicted_aqi pt)%Q
   /\ (AQIPredictionModel.predicted_aqi pt
       <= AQIPredictionModel.upper_bound pt)%Q)
  /\ ((ens <= 0)%Q ->
      (AQIPredictionModel.predicted_aqi pt == 0)%Q
      /\ (AQIPredictionModel.lower_bound pt == 0)%Q
      /\ (AQIPredictionModel.upper_bound pt <= 0)%Q).
Proof.
  intros Hrun Hpt Hens.
  destruct (predict_point _ _ _ _ _ _ _ _ Hrun Hpt) as (e & He & ->).
  rewrite Hens in He. injection He as <-. apply prediction_bracket.
Qed.

(** X12 at work on the forecast of [Sample.steady] (ensemble value 123)
    and on that of [Sample.cold] (ensemble value -125.025). *)
Lemma X12_interval_witness :
  (exists pt,
     AQIPredictionModel.predict Sample.steady Sample.morning []
       [Sample.reading] 1 = Ok [pt]
     /\ (AQIPredictionModel.lower_bound pt
         <= AQIPredictionModel.predicted_aqi pt)%Q)
  /\ (exists pt,
        AQIPredictionModel.predict Sample.cold Sample.morning []
          [Sample.reading] 1 = Ok [pt]
        /\ (AQIPredictionModel.upper_bound pt <= 0)%Q).
Proof.
  split.
  - destruct (AQIPredictionModel.predict Sample.steady Sample.morning []
                [Sample.reading] 1) as [[|pt [|? ?]]|] eqn:Hrun;
      [vm_compute in Hrun; discriminate Hrun| |vm_compute in Hrun; discriminate Hrun
      |vm_compute in Hrun; discriminate Hrun].
    exists pt. split; [reflexivity|].
    apply (X12_interval_brackets_the_estimate _ _ _ _ _ _ 0%nat pt
             (0.5 * 120 + 0.3 * 110 + 0.2 * 150.0)%Q Hrun eq_refl);
      [reflexivity|vm_compute; discriminate].
  - destruct (AQIPredictionModel.predict Sample.cold Sample.morning []
                [Sample.reading] 1) as [[|pt [|? ?]]|] eqn:Hrun;
      [vm_compute in Hrun; discriminate Hrun| |vm_compute in Hrun; discriminate Hrun
      |vm_compute in Hrun; discriminate Hrun].
    exists pt. split; [reflexivity|].
    apply (X12_interval_brackets_the_estimate _ _ _ _ _ _ 0%nat pt
             (0.5 * -400.05 + 0.3 * 150.0 + 0.2 * 150.0)%Q Hrun eq_refl);
      [reflexivity|vm_compute; discriminate].
Defined.

(** ** The prediction service: caching, failures and alerts *)

Section ServiceCaching.
Import PredictionService.
Local Open Scope Q_scope.

(** When [predict] raises [IndexError], the weather forecast is empty. *)
Lemma predict_loop_index_error self clock weather_forecast hours n :
  forall i window acc,
    window <> [] ->
    AQIPredictionModel.predict_loop self clock weather_forecast hours n i
      window acc = Raise AQIPredictionModel.IndexError ->
    weather_forecast = [] /\ n <> 0%nat.
Proof.
  induction n as [|n IH]; intros i window acc Hwin Hrun; [done|].
  cbn [AQIPredictionModel.predict_loop] in Hrun.
  unfold AQIPredictionModel.ensemble, AQIPredictionModel.lstm_predict in Hrun.
  destruct (AQIPredictionModel.lstm_model self) as [lstm|]; [|done].
  destruct (lstm window) as [y|]; [|done]. cbn [bind] in Hrun.
  destruct (last window) as [row|] eqn:Hlast; [|by apply last_None in Hlast].
  cbn [bind] in Hrun.
  destruct (AQIPredictionModel._create_feature_vector _ i weather_forecast)
    as [nf|e] eqn:Hnf; cbn [bind] in Hrun.
  - apply IH in Hrun as [-> _]; [done|]. by destruct (tail window).
  - split; [|done]. destruct weather_forecast as [|w ws]; [done|].
    by destruct (_create_feature_vector_ok
                   (0.5 * y
                    + 0.3 * AQIPredictionModel._safe_predict
                              (AQIPredictionModel.rf_model self) row
                    + 0.2 * AQIPredictionModel._safe_predict
                              (AQIPredictionModel.gb_model self) row)
                   i (w :: ws) ltac:(done)) as [nf' Hnf'];
      rewrite Hnf' in Hnf.
Qed.

End ServiceCaching.

(** X13.  When [predict] fails.  Asked for no hour (or a negative number of
    hours) it returns the empty list, whatever the models and the forecast.
    It raises [IndexError] only when the weather forecast is empty and at
    least one hour is asked for; and in that case, if the sequence model
    answers on the first window, [IndexError] is what it raises. *)
Theorem X13_predict_raises_index_error_only_without_weather
    (self : AQIPredictionModel.t) (clock : nat -> PyTime.datetime)
    (historical_data weather_forecast : list (gmap string Q)) (hours : Z) :
  ((hours <= 0)%Z ->
   AQIPredictionModel.predict self clock historical_data weather_forecast hours
   = Ok [])
  /\ (AQIPredictionModel.predict self clock historical_data weather_forecast
        hours = Raise AQIPredictionModel.IndexError ->
      weather_forecast = [] /\ (0 < hours)%Z)
  /\ (forall y,
        (0 < hours)%Z ->
        AQIPredictionModel.lstm_predict self
          (AQIPredictionModel._prepare_features historical_data [])
        = Ok y ->
        AQIPredictionModel.predict self clock historical_data [] hours
        = Raise AQIPredictionModel.IndexError).
Proof.
  split; [|split].
  - intros Hle. unfold AQIPredictionModel.predict.
    by replace (Z.to_nat hours) with 0%nat by lia.
  - intros Hrun. unfold AQIPredictionModel.predict in Hrun.
    apply predict_loop_index_error in Hrun as [-> Hn];
      [|apply initial_window_nonempty].
    split; [done|lia].
  - intros y Hhours Hlstm. unfold AQIPredictionModel.predict.
    rewrite initial_window.
    destruct (Z.to_nat hours) as [|n] eqn:Hn; [lia|].
    cbn [AQIPredictionModel.predict_loop].
    unfold AQIPredictionModel.ensemble. rewrite Hlstm. cbn [bind].
    destruct (last (AQIPredictionModel._prepare_features historical_data []))
      as [row|] eqn:Hlast.
    + reflexivity.
    + apply last_None in Hlast.
      pose proof (_prepare_features_length historical_data []) as Hlen.
      rewrite Hlast in Hlen. discriminate Hlen.
Qed.

(** X13 at work: no hour asked of a model whose sequence network is
    broken, and one hour asked without weather. *)
Lemma X13_predict_witness :
  AQIPredictionModel.predict Sample.broken Sample.morning [] [] 0 = Ok []
  /\ AQIPredictionModel.predict Sample.steady Sample.morning [] [] 1
     = Raise AQIPredictionModel.IndexError.
Proof.
  pose proof (X13_predict_raises_index_error_only_without_weather
                Sample.broken Sample.morning [] [] 0) as (Hnone & _).
  pose proof (X13_predict_raises_index_error_only_without_weather
                Sample.steady Sample.morning [] [] 1) as (_ & _ & Hempty).
  split; [apply Hnone; lia|].
  apply (Hempty 120%Q); [lia|reflexivity].
Defined.



(** X15.  A call of [get_predictions] that raises leaves the service, its
    cache included, as it was.  The exception is the one raised by the
    history provider, or the one raised by the weather provider, or comes
    from the model; and when both providers answer and the weather provider
    hands over one reading per hour asked for (as [fetch_forecast] does),
    it can only be the failure of the sequence model, never the
    [IndexError] of [predict]. *)
Theorem X15_failed_forecast_changes_nothing
    (self : PredictionService.t) (outside : PredictionService.Outside)
    (city : string) (hours : Z) (e : PredictionService.Exception) :
  (PredictionService.get_predictions self outside city hours).1 = Raise e ->
  (PredictionService.get_predictions self outside city hours).2 = self
  /\ (PredictionService.fetch_historical outside city 30 = Raise e
      \/ PredictionService.fetch_forecast outside city hours = Raise e
      \/ exists e', e = PredictionService.ModelError e')
  /\ (forall historical_data weather_forecast,
        PredictionService.fetch_historical outside city 30
        = Ok historical_data ->
        PredictionService.fetch_forecast outside city hours
        = Ok weather_forecast ->
        length weather_forecast = Z.to_nat hours ->
        e = PredictionService.ModelError AQIPredictionModel.EstimatorError).
Proof.
  unfold PredictionService.get_predictions. cbv zeta.
  destruct (match PredictionService.cache self
                    !! PredictionService.cache_key city hours with
            | Some (cached_data, timestamp) =>
                if Qlt_le_dec
                     (PredictionService.loop_time outside 0 - timestamp)
                     (PredictionService.cache_duration self)
                then Some cached_data else None
            | None => None
            end) as [cached|]; [done|].
  destruct (PredictionService.fetch_historical outside city 30) as [h|eh];
    cbn [bind fst snd].
  - destruct (PredictionService.fetch_forecast outside city hours)
      as [w|ew]; cbn [bind fst snd].
    + destruct (AQIPredictionModel.predict _ _ _ _ _) as [l|ep] eqn:Hpredict;
        cbn [bind fst snd]; [done|].
      intros [= <-]. split; [done|]. split; [right; right; by eexists|].
      intros h' w' _ [= <-] Hlen. destruct ep; [reflexivity|].
      unfold AQIPredictionModel.predict in Hpredict.
      apply predict_loop_index_error in Hpredict as [-> Hn];
        [|apply initial_window_nonempty].
      cbn in Hlen. lia.
    + intros [= <-]. split; [done|]. split; [by right; left|].
      intros h' w' _ Hw. discriminate Hw.
  - intros [= <-]. split; [done|]. split; [by left|].
    intros h' w' Hh. discriminate Hh.
Qed.

(** X15 at work: the weather provider is down for Delhi. *)
Lemma X15_failed_forecast_witness :
  (PredictionService.get_predictions Sample.service Sample.upstream
     "Delhi" 2).2 = Sample.service.
Proof.
  apply (X15_failed_forecast_changes_nothing Sample.service Sample.upstream
           "Delhi" 2 PredictionService.FetchError).
  vm_compute. reflexivity.
Defined.

Section AlertFacts.
Import Alerts.
Local Open Scope Q_scope.

Lemma gt_spec (x y : Q) : gt x y = true <-> y < x.
Proof.
  unfold gt. rewrite negb_true_iff, <- not_true_iff_false, Qle_bool_iff.
  split; [apply Qnot_le_lt|apply Qlt_not_le].
Qed.

Lemma gt_false (x y : Q) : gt x y = false <-> x <= y.
Proof. unfold gt. by rewrite negb_false_iff, Qle_bool_iff. Qed.

(** The loop appends, in order, the alert of every prediction above the
    threshold. *)
Lemma alerts_loop_filter threshold predictions :
  forall alerts,
    alerts_loop threshold predictions alerts
    = alerts
      ++ (alert_of
            <$> filter (fun pred =>
                          gt (AQIPredictionModel.predicted_aqi pred) threshold
                          = true) predictions).
Proof.
  induction predictions as [|pred predictions IH]; intros alerts.
  - cbn. by rewrite app_nil_r.
  - cbn [alerts_loop]. rewrite IH, filter_cons.
    destruct (gt (AQIPredictionModel.predicted_aqi pred) threshold) eqn:Hgt.
    + rewrite decide_True by done. by rewrite <- app_assoc.
    + by rewrite decide_False by done.
Qed.

Lemma _get_recommendation_bands (aqi : Q) :
  (300 < aqi ->
   _get_recommendation aqi
   = "Stay indoors. Avoid all outdoor activities. Use air purifiers."%string)
  /\ (200 < aqi -> aqi <= 300 ->
      _get_recommendation aqi
      = "Limit outdoor exposure. Wear N95 masks if you must go out."%string)
  /\ (150 < aqi -> aqi <= 200 ->
      _get_recommendation aqi
      = "Sensitive groups should reduce outdoor activities."%string)
  /\ (aqi <= 150 ->
      _get_recommendation aqi
      = "Moderate air quality. Take usual precautions."%string).
Proof.
  unfold _get_recommendation.
  destruct (gt aqi 300) eqn:H300; destruct (gt aqi 200) eqn:H200;
    destruct (gt aqi 150) eqn:H150;
    repeat match goal with
           | H : gt _ _ = true |- _ => apply gt_spec in H
           | H : gt _ _ = false |- _ => apply gt_false in H
           end;
    repeat split; intros; try reflexivity; exfalso; lra.
Qed.

End AlertFacts.

(** X16.  [get_alerts] always asks for the 48-hour forecast.  When the
    forecast is obtained, the alerts are those of its points whose reported
    AQI is strictly above the threshold, one alert each, in the order of
    the forecast, carrying the hour, timestamp and AQI of the point; the
    severity of an alert is "High" exactly when its AQI is above 300 and
    "Moderate" otherwise.  When the forecast fails, so does [get_alerts];
    the service is left as [get_predictions] leaves it. *)
Theorem X16_alerts_are_the_points_above_threshold
    (self : PredictionService.t) (outside : PredictionService.Outside)
    (city : string) (threshold : Q) :
  let forecast := PredictionService.get_predictions self outside city 48 in
  let alerts := Alerts.get_alerts self outside city threshold in
  alerts.2 = forecast.2
  /\ (forall e, forecast.1 = Raise e -> alerts.1 = Raise e)
  /\ (forall f, forecast.1 = Ok f ->
        exists l,
          alerts.1 = Ok l
          /\ l = Alerts.alert_of
                   <$> filter (fun pred =>
                                 Alerts.gt
                                   (AQIPredictionModel.predicted_aqi pred)
                                   threshold = true)
                              (PredictionService.predictions f)
          /\ Alerts.hour <$> l
             `sublist_of`
             AQIPredictionModel.hour <$> PredictionService.predictions f
          /\ (forall pred,
                pred ∈ PredictionService.predictions f ->
                (Alerts.alert_of pred ∈ l
                 <-> (threshold < AQIPredictionModel.predicted_aqi pred)%Q))
          /\ (forall a, a ∈ l ->
                (threshold < Alerts.predicted_aqi a)%Q
                /\ (Alerts.severity a = "High"%string
                    <-> (300 < Alerts.predicted_aqi a)%Q)
                /\ (Alerts.severity a = "Moderate"%string
                    <-> (Alerts.predicted_aqi a <= 300)%Q))).
Proof.
  intros forecast alerts. subst forecast alerts. unfold Alerts.get_alerts.
  destruct (PredictionService.get_predictions self outside city 48)
    as [[f|e] self']; cbn [fst snd bind].
  2: { split; [done|]. split; [by intros e' [= <-]|]. intros f Hf.
       discriminate Hf. }
  split; [done|]. split; [intros e He; discriminate He|].
  intros f' [= <-]. eexists. split; [reflexivity|].
  rewrite alerts_loop_filter. cbn [app].
  set (above := fun pred : AQIPredictionModel.Prediction =>
                  Alerts.gt (AQIPredictionModel.predicted_aqi pred) threshold
                  = true).
  split; [reflexivity|]. split; [|split].
  - rewrite <- list_fmap_compose.
    change (Alerts.hour ∘ Alerts.alert_of) with AQIPredictionModel.hour.
    apply fmap_sublist, sublist_filter.
  - intros pred Hpred. rewrite <- gt_spec. split.
    + intros Hin. apply list_elem_of_fmap in Hin as (pred' & Heq & Hin').
      apply list_elem_of_filter in Hin' as [Habove _]. unfold above in Habove.
      apply (f_equal Alerts.predicted_aqi) in Heq. cbn in Heq.
      by rewrite Heq.
    + intros Habove. apply list_elem_of_fmap. exists pred.
      split; [done|]. by apply list_elem_of_filter.
  - intros a Ha. apply list_elem_of_fmap in Ha as (pred & -> & Hin).
    apply list_elem_of_filter in Hin as [Habove _]. unfold above in Habove.
    cbn. split; [by apply gt_spec|].
    destruct (Alerts.gt (AQIPredictionModel.predicted_aqi pred) 300)
      eqn:Hgt.
    + apply gt_spec in Hgt. split; [done|].
      split; [done|]. intros Hle. exfalso. lra.
    + apply gt_false in Hgt. split; [|done].
      split; [done|]. intros Hlt. exfalso. lra.
Qed.

(** X16 at work: the forecast of [Sample.steady] reports 123 for every
    hour, above a threshold of 100; and no alert without weather for
    Delhi. *)
Lemma X16_alerts_witness :
  (exists l,
     (Alerts.get_alerts Sample.service Sample.upstream "Mumbai" 100).1 = Ok l
     /\ length l = 48%nat)
  /\ (Alerts.get_alerts Sample.service Sample.upstream "Delhi" 100).1
     = Raise PredictionService.FetchError.
Proof.
  split.
  - pose proof (X16_alerts_are_the_points_above_threshold Sample.service
                  Sample.upstream "Mumbai" 100) as (_ & _ & Hok).
    cbv zeta in Hok.
    destruct (PredictionService.get_predictions Sample.service
                Sample.upstream "Mumbai" 48) as [[f|e] self'] eqn:Hrun;
      [|vm_compute in Hrun; discriminate Hrun].
    destruct (Hok f eq_refl) as (l & Hl & Heq & _).
    exists l. split; [exact Hl|].
    vm_compute in Hrun. injection Hrun as <- _.
    rewrite Heq. vm_compute. reflexivity.
  - apply (proj1 (proj2 (X16_alerts_are_the_points_above_threshold
                           Sample.service Sample.upstream "Delhi" 100))).
    vm_compute. reflexivity.
Defined.

Section SeverityFacts.
Import AQIPredictionModel.
Local Open Scope Q_scope.

(** A reported value above a bound that [round(., 1)] keeps comes from a
    value above the bound. *)
Lemma reported_above (ens b : Q) :
  0 <= b -> round1 b <= b -> b < Qmax 0 (round1 ens) -> b < ens.
Proof.
  intros Hb Hround Habove.
  destruct (Qlt_le_dec b ens) as [Hlt|Hle]; [exact Hlt|]. exfalso.
  apply round1_mono in Hle.
  destruct (Q.max_spec 0 (round1 ens)) as [[_ E]|[_ E]];
    rewrite E in Habove; lra.
Qed.

Lemma reported_at_least (ens b : Q) :
  b <= round1 b -> b < ens -> b <= Qmax 0 (round1 ens).
Proof.
  intros Hround Hlt. apply Qlt_le_weak, round1_mono in Hlt.
  pose proof (Q.le_max_r 0 (round1 ens)). lra.
Qed.

Lemma _get_risk_level_above (aqi : Q) :
  (200 < aqi ->
   _get_risk_level aqi = "Very Poor"%string
   \/ _get_risk_level aqi = "Severe"%string)
  /\ (_get_risk_level aqi = "Severe"%string <-> 300 < aqi).
Proof.
  destruct (risk_level_cases aqi) as (Hgood & Hmod & Hpoor & Hvery & Hsev).
  split.
  - intros H200. destruct (Qlt_le_dec 300 aqi) as [H|H].
    + right. by apply Hsev.
    + left. by apply Hvery.
  - split; [|exact Hsev]. intros Hrisk.
    destruct (Qlt_le_dec 300 aqi) as [H|H]; [exact H|]. exfalso.
    destruct (Qlt_le_dec 200 aqi) as [H2|H2];
      [rewrite (Hvery H2 H) in Hrisk; discriminate Hrisk|].
    destruct (Qlt_le_dec 100 aqi) as [H1|H1];
      [rewrite (Hpoor H1 H2) in Hrisk; discriminate Hrisk|].
    destruct (Qlt_le_dec 50 aqi) as [H0|H0];
      [rewrite (Hmod H0 H1) in Hrisk; discriminate Hrisk|].
    rewrite (Hgood H0) in Hrisk. discriminate Hrisk.
Qed.

End SeverityFacts.

(** X17.  The severity of an alert is read from the reported (rounded)
    AQI of a forecast point, its risk level from the unrounded ensemble
    value, and the two agree in one direction only.  For the point that
    [predict] appends for an ensemble value: an alert of severity "High"
    belongs to a point of risk level "Severe"; a reported AQI above 200 (the
    default threshold of [get_alerts]) belongs to a point of risk level
    "Very Poor" or "Severe"; a point of risk level "Severe" reports at least
    300, and exactly 300.0, hence severity "Moderate", for some ensemble
    values above 300; the recommendation is the stay-indoors one exactly for
    severity "High". *)
Theorem X17_alert_severity_follows_risk_level
    (i : nat) (hours : Z) (now : Z) (ens : Q) :
  let pt := AQIPredictionModel.prediction i hours now ens in
  let a := Alerts.alert_of pt in
  (Alerts.severity a = "High"%string ->
   AQIPredictionModel.risk_level pt = "Severe"%string)
  /\ ((200 < Alerts.predicted_aqi a)%Q ->
      AQIPredictionModel.risk_level pt = "Very Poor"%string
      \/ AQIPredictionModel.risk_level pt = "Severe"%string)
  /\ (AQIPredictionModel.risk_level pt = "Severe"%string ->
      (300 <= Alerts.predicted_aqi a)%Q)
  /\ ((300 < ens)%Q -> (ens <= 300 + (1 # 20))%Q ->
      AQIPredictionModel.risk_level pt = "Severe"%string
      /\ Alerts.severity a = "Moderate"%string)
  /\ (Alerts.severity a = "High"%string
      <-> Alerts.recommendation a
          = "Stay indoors. Avoid all outdoor activities. Use air purifiers."%string).
Proof.
  intros pt a. subst pt a. cbn.
  assert (AQIPredictionModel.round1 300 <= 300)%Q as H300
    by (vm_compute; discriminate).
  assert (300 <= AQIPredictionModel.round1 300)%Q as H300'
    by (vm_compute; discriminate).
  assert (AQIPredictionModel.round1 200 <= 200)%Q as H200
    by (vm_compute; discriminate).
  assert (AQIPredictionModel.round1 (300 + (1 # 20)) <= 300)%Q as Hhalf
    by (vm_compute; discriminate).
  set (reported := Qmax 0 (AQIPredictionModel.round1 ens)).
  split; [|split; [|split; [|split]]].
  - destruct (Alerts.gt reported 300) eqn:Hgt;
      [|intros Hsev; discriminate Hsev].
    intros _. apply gt_spec in Hgt. apply _get_risk_level_above.
    apply reported_above; [lra|exact H300|exact Hgt].
  - intros Habove. apply _get_risk_level_above.
    apply reported_above; [lra|exact H200|exact Habove].
  - intros Hrisk. apply _get_risk_level_above in Hrisk.
    by apply reported_at_least.
  - intros Hlo Hhi. split; [by apply _get_risk_level_above|].
    assert (reported <= 300)%Q as Hle.
    { apply round1_mono in Hhi. subst reported.
      apply Q.max_lub; [lra|]. lra. }
    apply gt_false in Hle. by rewrite Hle.
  - unfold Alerts._get_recommendation.
    destruct (Alerts.gt reported 300); [done|].
    split; [intros H; discriminate H|].
    destruct (Alerts.gt reported 200); [intros H; discriminate H|].
    destruct (Alerts.gt reported 150); intros H; discriminate H.
Qed.

(** X17 at work: an ensemble value of 350 gives a "High" alert on a
    "Severe" point; 300.04 gives a "Severe" point reported as 300.0. *)
Lemma X17_alert_severity_witness :
  AQIPredictionModel.risk_level
    (AQIPredictionModel.prediction 0 48 0 350) = "Severe"%string
  /\ Alerts.severity
       (Alerts.alert_of (AQIPredictionModel.prediction 0 48 0 (30004 # 100)))
     = "Moderate"%string.
Proof.
  pose proof (X17_alert_severity_follows_risk_level 0 48 0 350)
    as (Hhigh & _).
  pose proof (X17_alert_severity_follows_risk_level 0 48 0 (30004 # 100))
    as (_ & _ & _ & Hedge & _).
  split.
  - apply Hhigh. vm_compute. reflexivity.
  - apply Hedge; vm_compute; [reflexivity|discriminate].
Defined.

(** X18.  The overall status of [run_all_checks] is "healthy" exactly when
    the database answers, the model object is built with its sequence
    model, and the disk usage can be read and is at most 90 percent;
    otherwise it is "degraded".  The two external services take no part in
    it: whatever their requests return, the status is the same, although
    their own entry is healthy only when both answer with a status below
    500.  A disk usage above 80 and at most 90 percent is reported as a
    warning and still counts as healthy. *)
Theorem X18_health_status_ignores_external_apis
    (probe : HealthChecker.Probe) :
  let report := HealthChecker.run_all_checks probe in
  (HealthChecker.status report = "healthy"%string
   <-> HealthChecker.database_answers probe = true
       /\ HealthChecker.lstm_loaded probe = Some true
       /\ exists percent_used,
            HealthChecker.disk_percent probe = Some percent_used
            /\ (percent_used <= 90)%Q)
  /\ (HealthChecker.status report = "degraded"%string
      <-> HealthChecker.status report <> "healthy"%string)
  /\ (forall cpcb openweather,
        HealthChecker.status
          (HealthChecker.run_all_checks
             {| HealthChecker.database_answers :=
                  HealthChecker.database_answers probe;
                HealthChecker.cpcb_status := cpcb;
                HealthChecker.openweather_status := openweather;
                HealthChecker.lstm_loaded := HealthChecker.lstm_loaded probe;
                HealthChecker.disk_percent :=
                  HealthChecker.disk_percent probe |})
        = HealthChecker.status report)
  /\ ((HealthChecker.external_apis report).1 = true
      <-> exists cpcb openweather,
            HealthChecker.cpcb_status probe = Some cpcb
            /\ HealthChecker.openweather_status probe = Some openweather
            /\ (cpcb < 500)%Z /\ (openweather < 500)%Z)
  /\ (forall percent_used,
        HealthChecker.disk_percent probe = Some percent_used ->
        (80 < percent_used)%Q -> (percent_used <= 90)%Q ->
        HealthChecker.disk_space report
        = (true, HealthChecker.DiskWarning percent_used)).
Proof.
  destruct probe as [db cpcb openweather lstm disk].
  cbv zeta. unfold HealthChecker.run_all_checks. cbn.
  unfold HealthChecker.check_database, HealthChecker.check_ml_models,
    HealthChecker.check_disk_space, HealthChecker.check_external_apis. cbn.
  split; [|split; [|split; [|split]]].
  - destruct db; cbn.
    2: { split; [intros H; discriminate H|]. intros (H & _). discriminate H. }
    destruct lstm as [[|]|]; cbn.
    2,3: split; [intros H; discriminate H|]; intros (_ & H & _);
         discriminate H.
    destruct disk as [percent_used|]; cbn.
    2: { split; [intros H; discriminate H|].
         intros (_ & _ & p & H & _). discriminate H. }
    destruct (Alerts.gt percent_used 90) eqn:H90; cbn.
    + apply gt_spec in H90. split; [intros H; discriminate H|].
      intros (_ & _ & p & [= <-] & Hle). exfalso. lra.
    + apply gt_false in H90.
      assert (forall b : bool,
                (if b then (true, HealthChecker.DiskWarning percent_used)
                 else (true, HealthChecker.DiskNormal percent_used)).1 = true)
        as Hfst by (by intros [|]).
      rewrite Hfst. split; [|done]. intros _.
      split; [done|]. split; [done|]. by exists percent_used.
  - match goal with
    | |- context [if ?b then "healthy"%string else _] => destruct b
    end.
    + split; [intros H; discriminate H|]. intros H. by destruct H.
    + split; [intros _ H; discriminate H|done].
  - intros cpcb' openweather'. reflexivity.
  - destruct cpcb as [c|]; cbn.
    2: { split; [intros H; discriminate H|].
         intros (c & o & H & _). discriminate H. }
    destruct openweather as [o|]; cbn.
    2: { rewrite andb_false_r. split; [intros H; discriminate H|].
         intros (c' & o & _ & H & _). discriminate H. }
    rewrite andb_true_iff, !bool_decide_eq_true. split.
    + intros [Hc Ho]. by exists c, o.
    + by intros (c' & o' & [= <-] & [= <-] & Hc & Ho).
  - intros percent_used [= ->] H80 H90.
    apply gt_false in H90. apply gt_spec in H80. by rewrite H90, H80.
Qed.

(** X18 at work: with both external services down and the disk at 85
    percent the status is still "healthy". *)
Lemma X18_health_status_witness :
  HealthChecker.status
    (HealthChecker.run_all_checks
       {| HealthChecker.database_answers := true;
          HealthChecker.cpcb_status := None;
          HealthChecker.openweather_status := Some 503%Z;
          HealthChecker.lstm_loaded := Some true;
          HealthChecker.disk_percent := Some 85%Q |})
  = "healthy"%string
  /\ HealthChecker.disk_space
       (HealthChecker.run_all_checks
          {| HealthChecker.database_answers := true;
             HealthChecker.cpcb_status := None;
             HealthChecker.openweather_status := Some 503%Z;
             HealthChecker.lstm_loaded := Some true;
             HealthChecker.disk_percent := Some 85%Q |})
     = (true, HealthChecker.DiskWarning 85).
Proof.
  pose proof (X18_health_status_ignores_external_apis
                {| HealthChecker.database_answers := true;
                   HealthChecker.cpcb_status := None;
                   HealthChecker.openweather_status := Some 503%Z;
                   HealthChecker.lstm_loaded := Some true;
                   HealthChecker.disk_percent := Some 85%Q |})
    as (Hhealthy & _ & _ & _ & Hwarning).
  split.
  - apply Hhealthy. split; [reflexivity|]. split; [reflexivity|].
    exists 85%Q. split; [reflexivity|]. vm_compute. discriminate.
  - apply Hwarning; [reflexivity|reflexivity|]. vm_compute. discriminate.
Defined.

Section MetricsFacts.
Import PerformanceMonitor.
Local Open Scope Q_scope.








End MetricsFacts.




